(** * Invoice server actions ([src/app/lib/actions.ts]): a shallow embedding

The file embeds the server actions [createInvoice], [updateInvoice],
[deleteInvoice] and [authenticate], together with the part of their
run-time they rest on:

- ECMAScript values as they reach the actions ([FormData] entries,
  [undefined], [null], strings, numbers), numbers being IEEE-754 binary64
  values ([spec_float] at precision 53), and [Number(...)] on them;
- the fragment of the zod 3 validation library that [FormSchema] uses
  ([z.string], [z.coerce.number().gt], [z.enum], [z.object], [omit],
  [safeParse], [parse], [flatten]) with its error maps;
- the external capabilities ([sql], [revalidatePath],
  [revalidateRedirectPath], [signIn], the clock) as an explicit
  environment acting on a world state, every call being logged in a
  trace.

A JavaScript string is represented by the bytes of its UTF-8 encoding. *)

From Stdlib Require Import ZArith List Bool Ascii String DecimalString.
From Stdlib Require Import Floats.SpecFloat.
From stdpp Require Import base option strings gmap.

Local Open Scope string_scope.
Local Open Scope Z_scope.

(** ** Numbers: IEEE-754 binary64 *)

Module Num.

Definition prec : Z := 53.
Definition emax : Z := 1024.

Definition number := spec_float.

Definition NaN : number := S754_nan.
Definition zero : number := S754_zero false.

(** An integer as a number, rounded to nearest (ties to even). *)
Definition of_Z (z : Z) : number := binary_normalize prec emax z 0 false.

(** [m * 10^k] for [m > 0], correctly rounded: the quotient by a power of
    ten is taken with the division core of the library and rounded with
    the location of the remainder. *)
Definition of_decimal (neg : bool) (m : Z) (k : Z) : number :=
  match m with
  | Z0 => S754_zero neg
  | Zneg _ => NaN
  | Zpos _ =>
      if 0 <=? k then
        match m * 10 ^ k with
        | Zpos p => binary_round prec emax neg p 0
        | _ => NaN
        end
      else
        let '(q, e, l) := SFdiv_core_binary prec emax m 0 (10 ^ (- k)) 0 in
        binary_round_aux prec emax neg q e l
  end.

Definition mul (x y : number) : number := SFmul prec emax x y.
Definition leb (x y : number) : bool := SFleb x y.
Definition ltb (x y : number) : bool := SFltb x y.

Definition is_nan (x : number) : bool :=
  match x with S754_nan => true | _ => false end.

(** [Number.isInteger]. *)
Definition is_integer (x : number) : bool :=
  match x with
  | S754_zero _ => true
  | S754_finite _ m e =>
      if 0 <=? e then true else (Zpos m mod 2 ^ (- e) =? 0)
  | _ => false
  end.

(** The integer a finite number equals, when it is one. *)
Definition to_Z (x : number) : option Z :=
  match x with
  | S754_zero _ => Some 0
  | S754_finite s m e =>
      if is_integer x then
        let a := if 0 <=? e then Zpos m * 2 ^ e else Zpos m / 2 ^ (- e) in
        Some (if s then - a else a)
      else None
  | _ => None
  end.

End Num.

(** ** ECMAScript values and [Number(...)] *)

Module Js.

(** The values that flow through the actions.  [File] stands for any
    [File] object of a multipart form: only its type is ever observed. *)
Inductive value :=
| Undefined
| Null
| Str (s : string)
| Number (x : Num.number)
| File.

Definition byte (c : ascii) : Z := Z.of_N (N_of_ascii c).

(** *** White space ([StrWhiteSpaceChar]), on UTF-8 bytes *)

(** TAB, LF, VT, FF, CR, SP. *)
Definition ws1 (a : ascii) : bool :=
  let n := byte a in ((9 <=? n) && (n <=? 13)) || (n =? 32).

(** U+00A0. *)
Definition ws2 (a b : ascii) : bool := (byte a =? 194) && (byte b =? 160).

(** U+1680, U+2000..U+200A, U+2028, U+2029, U+202F, U+205F, U+3000,
    U+FEFF. *)
Definition ws3 (a b c : ascii) : bool :=
  let '(x, y, z) := (byte a, byte b, byte c) in
  ((x =? 225) && (y =? 154) && (z =? 128))
  || ((x =? 226) && (y =? 128)
      && (((128 <=? z) && (z <=? 138)) || (z =? 168) || (z =? 169) || (z =? 175)))
  || ((x =? 226) && (y =? 129) && (z =? 159))
  || ((x =? 227) && (y =? 128) && (z =? 128))
  || ((x =? 239) && (y =? 187) && (z =? 191)).

(** Drops the white space a string starts with; with [back] the string is
    read as reversed, so that the bytes of a code point come last first. *)
Fixpoint trim_ws (back : bool) (s : string) : string :=
  match s with
  | String a r =>
      if ws1 a then trim_ws back r
      else
        match r with
        | String b r' =>
            if (if back then ws2 b a else ws2 a b) then trim_ws back r'
            else
              match r' with
              | String c r'' =>
                  if (if back then ws3 c b a else ws3 a b c)
                  then trim_ws back r''
                  else s
              | EmptyString => s
              end
        | EmptyString => s
        end
  | EmptyString => s
  end.

Definition reverse (s : string) : string :=
  string_of_list_ascii (List.rev (list_ascii_of_string s)).

Definition trim (s : string) : string :=
  reverse (trim_ws true (reverse (trim_ws false s))).

(** *** Numeric literals ([StringNumericLiteral]) *)

Definition digit_val (base : Z) (c : ascii) : option Z :=
  let n := byte c in
  let d :=
    if (48 <=? n) && (n <=? 57) then Some (n - 48)
    else if (97 <=? n) && (n <=? 102) then Some (n - 87)
    else if (65 <=? n) && (n <=? 70) then Some (n - 55)
    else None in
  match d with
  | Some v => if v <? base then Some v else None
  | None => None
  end.

(** The longest run of digits a string starts with: the value read (on top
    of [acc]), how many digits were read (on top of [n]), and the rest. *)
Fixpoint digits (base : Z) (s : string) (acc n : Z) : Z * Z * string :=
  match s with
  | String c r =>
      match digit_val base c with
      | Some d => digits base r (acc * base + d) (n + 1)
      | None => (acc, n, s)
      end
  | EmptyString => (acc, n, s)
  end.

Definition is_empty (s : string) : bool :=
  match s with EmptyString => true | _ => false end.

Definition sign_of (s : string) : bool * string :=
  match s with
  | String "+" r => (false, r)
  | String "-" r => (true, r)
  | _ => (false, s)
  end.

(** [0x], [0o] and [0b] literals (no sign). *)
Definition non_decimal (s : string) : option Num.number :=
  match s with
  | String "0" (String p r) =>
      let base :=
        if (Ascii.eqb p "x" || Ascii.eqb p "X")%bool then Some 16
        else if (Ascii.eqb p "o" || Ascii.eqb p "O")%bool then Some 8
        else if (Ascii.eqb p "b" || Ascii.eqb p "B")%bool then Some 2
        else None in
      match base with
      | Some b =>
          let '(v, n, rest) := digits b r 0 0 in
          Some (if (0 <? n) && is_empty rest then Num.of_Z v else Num.NaN)
      | None => None
      end
  | _ => None
  end.

(** [ExponentPart], when present; [None] when the text is no exponent. *)
Definition exponent (s : string) : option Z :=
  match s with
  | EmptyString => Some 0
  | String c r =>
      if (Ascii.eqb c "e" || Ascii.eqb c "E")%bool then
        let '(neg, r1) := sign_of r in
        let '(v, n, rest) := digits 10 r1 0 0 in
        if (0 <? n) && is_empty rest then Some (if neg then - v else v)
        else None
      else None
  end.

(** [StrDecimalLiteral]. *)
Definition decimal (s : string) : Num.number :=
  let '(neg, r) := sign_of s in
  if String.eqb r "Infinity" then S754_infinity neg
  else
    let '(mi, ni, r1) := digits 10 r 0 0 in
    let '(m, nf, r2) :=
      match r1 with
      | String "." r1' => digits 10 r1' mi 0
      | _ => (mi, 0, r1)
      end in
    if ni + nf =? 0 then Num.NaN
    else
      match exponent r2 with
      | Some e => Num.of_decimal neg m (e - nf)
      | None => Num.NaN
      end.

(** [StringToNumber]: white space is trimmed; the empty text is [+0]; a
    text that is no numeric literal is [NaN]. *)
Definition StringToNumber (s : string) : Num.number :=
  let t := trim s in
  if is_empty t then Num.zero
  else
    match non_decimal t with
    | Some x => x
    | None => decimal t
    end.

(** [Number(v)], that is [ToNumber]: [undefined] is [NaN], [null] is [+0],
    and an object without numeric primitive value (a [File], whose string
    form is no numeric literal) is [NaN]. *)
Definition ToNumber (v : value) : Num.number :=
  match v with
  | Undefined => Num.NaN
  | Null => Num.zero
  | Str s => StringToNumber s
  | Number x => x
  | File => Num.NaN
  end.

(** [a * b] on values. *)
Definition times (a b : value) : value :=
  Number (Num.mul (ToNumber a) (ToNumber b)).

End Js.

(** ** The zod 3 fragment used by [FormSchema] *)

Module Zod.

Inductive ZodParsedType :=
| PT_undefined | PT_null | PT_string | PT_nan | PT_number | PT_object.

Definition getParsedType (v : Js.value) : ZodParsedType :=
  match v with
  | Js.Undefined => PT_undefined
  | Js.Null => PT_null
  | Js.Str _ => PT_string
  | Js.Number x => if Num.is_nan x then PT_nan else PT_number
  | Js.File => PT_object
  end.

Definition type_name (t : ZodParsedType) : string :=
  match t with
  | PT_undefined => "undefined"
  | PT_null => "null"
  | PT_string => "string"
  | PT_nan => "nan"
  | PT_number => "number"
  | PT_object => "object"
  end.

Definition is_undefined (v : Js.value) : bool :=
  match v with Js.Undefined => true | _ => false end.

Inductive ZodIssueCode := invalid_type | invalid_enum_value | too_small.

(** What a schema hands to [addIssueToContext], the optional [message]
    apart. *)
Inductive IssueData :=
| InvalidType (expected : string) (received : ZodParsedType)
| InvalidEnumValue (options : list string) (received : string)
| TooSmall (minimum : Z) (inclusive : bool).

Definition code_of (d : IssueData) : ZodIssueCode :=
  match d with
  | InvalidType _ _ => invalid_type
  | InvalidEnumValue _ _ => invalid_enum_value
  | TooSmall _ _ => too_small
  end.

Record ZodIssue := {
  code : ZodIssueCode;
  path : list string;
  message : string
}.

(** [util.joinValues]: each string quoted, separated by [ | ]. *)
Fixpoint joinValues (vs : list string) : string :=
  match vs with
  | [] => ""
  | [v] => "'" +:+ v +:+ "'"
  | v :: rest => "'" +:+ v +:+ "' | " +:+ joinValues rest
  end.

Definition show_Z (z : Z) : string :=
  DecimalString.NilZero.string_of_int (Z.to_int z).

(** The default (English) error map, on the issues of this fragment. *)
Definition defaultErrorMap (d : IssueData) : string :=
  match d with
  | InvalidType expected received =>
      match received with
      | PT_undefined => "Required"
      | _ => "Expected " +:+ expected +:+ ", received " +:+ type_name received
      end
  | InvalidEnumValue options received =>
      "Invalid enum value. Expected " +:+ joinValues options
      +:+ ", received '" +:+ received +:+ "'"
  | TooSmall minimum inclusive =>
      "Number must be "
      +:+ (if inclusive then "greater than or equal to " else "greater than ")
      +:+ show_Z minimum
  end.

(** The parameters a schema is created with ([RawCreateParams]). *)
Record CreateParams := {
  invalid_type_error : option string;
  required_error : option string
}.

(** [processCreateParams]: the error map of a schema created with
    parameters. *)
Definition customMap (p : CreateParams) (d : IssueData) (data : Js.value)
    (defaultError : string) : string :=
  match code_of d with
  | invalid_enum_value => defaultError
  | c =>
      if is_undefined data then default defaultError (required_error p)
      else
        match c with
        | invalid_type => default defaultError (invalid_type_error p)
        | _ => defaultError
        end
  end.

(** [makeIssue]: the default map first, then the schema's own; a message
    given with the issue wins. *)
Definition makeIssue (schemaErrorMap : option CreateParams)
    (pth : list string) (data : Js.value) (d : IssueData)
    (msg : option string) : ZodIssue :=
  let errorMessage :=
    match schemaErrorMap with
    | Some p => customMap p d data (defaultErrorMap d)
    | None => defaultErrorMap d
    end in
  {| code := code_of d; path := pth; message := default errorMessage msg |}.

Inductive NumberCheck :=
| Min (value : Z) (inclusive : bool) (message : option string).

Inductive ZodType :=
| ZodString (params : option CreateParams)
| ZodNumber (coerce : bool) (checks : list NumberCheck)
    (params : option CreateParams)
| ZodEnum (values : list string) (params : option CreateParams).

(** [z.string(params)], [z.coerce.number()], [.gt(value, { message })] and
    [z.enum(values, params)]. *)
Definition string_ (params : option CreateParams) : ZodType :=
  ZodString params.

Definition coerce_number : ZodType :=
  ZodNumber true []
    (Some {| invalid_type_error := None; required_error := None |}).

Definition gt (t : ZodType) (value : Z) (msg : string) : ZodType :=
  match t with
  | ZodNumber c checks p => ZodNumber c (checks ++ [Min value false (Some msg)])%list p
  | _ => t
  end.

Definition enum (values : list string) (params : option CreateParams)
  : ZodType := ZodEnum values params.

(** The result of [_parse]; the issues are returned beside it, in the
    order they are added to the context. *)
Inductive ParseReturn :=
| INVALID
| DIRTY (v : Js.value)
| OK (v : Js.value).

Definition isValid (r : ParseReturn) : bool :=
  match r with OK _ => true | _ => false end.

Definition run_check (errorMap : option CreateParams) (pth : list string)
    (data : Js.value) (x : Num.number) (c : NumberCheck) : list ZodIssue :=
  match c with
  | Min value inclusive msg =>
      let tooSmall :=
        if inclusive then Num.ltb x (Num.of_Z value)
        else Num.leb x (Num.of_Z value) in
      if tooSmall
      then [makeIssue errorMap pth data (TooSmall value inclusive) msg]
      else []
  end.

Definition _parse (t : ZodType) (pth : list string) (input : Js.value)
  : ParseReturn * list ZodIssue :=
  match t with
  | ZodString params =>
      match input with
      | Js.Str _ => (OK input, [])
      | _ =>
          (INVALID,
           [makeIssue params pth input
              (InvalidType "string" (getParsedType input)) None])
      end
  | ZodNumber coerce checks params =>
      let data := if coerce then Js.Number (Js.ToNumber input) else input in
      match data, getParsedType data with
      | Js.Number x, PT_number =>
          let issues := flat_map (run_check params pth data x) checks in
          (match issues with [] => OK data | _ => DIRTY data end, issues)
      | _, _ =>
          (INVALID,
           [makeIssue params pth data
              (InvalidType "number" (getParsedType data)) None])
      end
  | ZodEnum values params =>
      match input with
      | Js.Str s =>
          if existsb (String.eqb s) values then (OK input, [])
          else
            (INVALID,
             [makeIssue params pth input (InvalidEnumValue values s) None])
      | _ =>
          (INVALID,
           [makeIssue params pth input
              (InvalidType (joinValues values) (getParsedType input)) None])
      end
  end.

(** *** Objects *)

(** An object literal: its own properties, in order. *)
Definition obj := list (string * Js.value).

Fixpoint prop (o : obj) (key : string) : option Js.value :=
  match o with
  | [] => None
  | (k, v) :: rest => if String.eqb k key then Some v else prop rest key
  end.

(** [o[key]]: [undefined] for a property the object does not have. *)
Definition get (o : obj) (key : string) : Js.value :=
  default Js.Undefined (prop o key).

Definition RawShape := list (string * ZodType).

(** [z.object(shape)], with the default policy for unknown keys (they are
    stripped). *)
Record ZodObject := { shape : RawShape }.

Definition object (s : RawShape) : ZodObject := {| shape := s |}.

(** [schema.omit(mask)]: the keys of the shape that the mask does not
    name, in the order of the shape. *)
Definition omit (o : ZodObject) (mask : list string) : ZodObject :=
  {| shape :=
       filter (fun kt => negb (existsb (String.eqb (fst kt)) mask)) (shape o) |}.

(** Every key of the shape is parsed, whatever the others gave. *)
Fixpoint parse_pairs (sh : RawShape) (data : obj)
  : list (string * ParseReturn) * list ZodIssue :=
  match sh with
  | [] => ([], [])
  | (key, t) :: rest =>
      let '(r, is1) := _parse t [key] (get data key) in
      let '(pairs, is2) := parse_pairs rest data in
      ((key, r) :: pairs, (is1 ++ is2)%list)
  end.

Inductive ObjectReturn :=
| O_INVALID
| O_DIRTY (o : obj)
| O_OK (o : obj).

Definition set_key (data : obj) (key : string) (v : Js.value) (o : obj) : obj :=
  if negb (is_undefined v) || bool_decide (is_Some (prop data key))
  then (o ++ [(key, v)])%list else o.

(** [ParseStatus.mergeObjectSync], from a given status and final object. *)
Fixpoint mergeObjectSync (data : obj) (dirty : bool) (final : obj)
    (pairs : list (string * ParseReturn)) : ObjectReturn :=
  match pairs with
  | [] => if dirty then O_DIRTY final else O_OK final
  | (key, INVALID) :: _ => O_INVALID
  | (key, DIRTY v) :: rest =>
      mergeObjectSync data true (set_key data key v final) rest
  | (key, OK v) :: rest =>
      mergeObjectSync data dirty (set_key data key v final) rest
  end.

Definition _parseObject (o : ZodObject) (data : obj)
  : ObjectReturn * list ZodIssue :=
  let '(pairs, issues) := parse_pairs (shape o) data in
  (mergeObjectSync data false [] pairs, issues).

Inductive SafeParseReturn :=
| success (data : obj)
| failure (error : list ZodIssue).

Definition safeParse (o : ZodObject) (data : obj) : SafeParseReturn :=
  match _parseObject o data with
  | (O_OK v, _) => success v
  | (_, issues) => failure issues
  end.

(** [error.flatten()]: the messages of the issues, by the first component
    of their path; those without a path are form errors. *)
Record Flattened := {
  formErrors : list string;
  fieldErrors : gmap string (list string)
}.

Definition flatten_step (acc : Flattened) (sub : ZodIssue) : Flattened :=
  match path sub with
  | key :: _ =>
      {| formErrors := formErrors acc;
         fieldErrors :=
           <[key := (default [] (fieldErrors acc !! key) ++ [message sub])%list]>
             (fieldErrors acc) |}
  | [] =>
      {| formErrors := (formErrors acc ++ [message sub])%list;
         fieldErrors := fieldErrors acc |}
  end.

Definition flatten (error : list ZodIssue) : Flattened :=
  fold_left flatten_step error {| formErrors := []; fieldErrors := ∅ |}.

End Zod.

(** ** The run-time of a server action *)

Module Rt.

(** *** Form data *)

Inductive FormDataEntryValue :=
| EntryString (s : string)
| EntryFile.

(** The entries of a [FormData], in order; a name may occur more than
    once. *)
Definition FormData := list (string * FormDataEntryValue).

(** [formData.get(name)]: the first value of that name, [null] when there
    is none. *)
Fixpoint FormData_get (fd : FormData) (name : string) : Js.value :=
  match fd with
  | [] => Js.Null
  | (k, v) :: rest =>
      if String.eqb k name
      then match v with EntryString s => Js.Str s | EntryFile => Js.File end
      else FormData_get rest name
  end.

(** [formData?.get(name)]. *)
Definition opt_get (formData : option FormData) (name : string) : Js.value :=
  match formData with
  | Some fd => FormData_get fd name
  | None => Js.Undefined
  end.

(** *** Thrown values, statements, and the log of calls *)

Inductive JsError :=
| AuthError (type : string)
| ZodError (issues : list Zod.ZodIssue)
| OtherError (what : string).

Inductive Completion (A : Type) :=
| Normal (a : A)
| Throw (e : JsError).
Arguments Normal {A} a.
Arguments Throw {A} e.

(** The three statements of the actions, with the values bound into
    them. *)
Inductive Query :=
| INSERT_invoices (customer_id amount status date : Js.value)
| UPDATE_invoices (customer_id amount status id : Js.value)
| DELETE_invoices (id : Js.value).

Inductive Event :=
| EvSql (q : Query)
| EvRevalidatePath (p : string)
| EvRevalidateRedirectPath (p : string)
| EvSignIn (provider : string) (formData : FormData).

(** The capabilities an action calls, over a world [W] (the store, the
    cache, the session, the clock): each completes or raises, and leaves a
    world.  [revalidateRedirectPath] is the helper the actions import from
    [./utils]; like [sql], [revalidatePath] and [signIn] it is taken as
    given. *)
Record Env (W : Type) := {
  sql : Query -> W -> Completion unit * W;
  revalidatePath : string -> W -> Completion unit * W;
  revalidateRedirectPath : string -> W -> Completion unit * W;
  signIn : string -> FormData -> W -> Completion unit * W;
  Date_toISOString : W -> string
}.
Arguments sql {W}.
Arguments revalidatePath {W}.
Arguments revalidateRedirectPath {W}.
Arguments signIn {W}.
Arguments Date_toISOString {W}.

Record Sys (W : Type) := { world : W; trace : list Event }.
Arguments world {W}.
Arguments trace {W}.

(** *** The monad of an action: state and exceptions *)

Definition M (W A : Type) : Type := Sys W -> Completion A * Sys W.

Definition ret {W A} (a : A) : M W A := fun s => (Normal a, s).

Definition throw {W A} (e : JsError) : M W A := fun s => (Throw e, s).

Definition bind {W A B} (m : M W A) (k : A -> M W B) : M W B :=
  fun s =>
    match m s with
    | (Normal a, s') => k a s'
    | (Throw e, s') => (Throw e, s')
    end.

#[global] Instance M_ret {W} : MRet (M W) := fun A => ret.
#[global] Instance M_bind {W} : MBind (M W) := fun A B k m => bind m k.

(** [try { m } catch (error) { h error }]. *)
Definition try_catch {W A} (m : M W A) (h : JsError -> M W A) : M W A :=
  fun s =>
    match m s with
    | (Normal a, s') => (Normal a, s')
    | (Throw e, s') => h e s'
    end.

(** A call of a capability: logged, then run on the world. *)
Definition call {W} (ev : Event) (f : W -> Completion unit * W) : M W unit :=
  fun s =>
    let '(c, w) := f (world s) in
    (c, {| world := w; trace := (trace s ++ [ev])%list |}).

Definition gets {W A} (f : W -> A) : M W A :=
  fun s => (Normal (f (world s)), s).

(** The statements issued in a log. *)
Definition statements (t : list Event) : list Query :=
  flat_map (fun ev => match ev with EvSql q => [q] | _ => [] end) t.

End Rt.

(** ** The actions of [src/app/lib/actions.ts] *)

Module Actions.
Import Rt.

(** What an action hands back to the form ([State], without the [id] that
    no action sets). *)
Record State := {
  errors : option (gmap string (list string));
  message : option string
}.

Definition FormSchema : Zod.ZodObject :=
  Zod.object
    [ ("id", Zod.string_ None);
      ("customerId",
       Zod.string_
         (Some {| Zod.invalid_type_error := Some "Please select a customer.";
                  Zod.required_error := None |}));
      ("amount",
       Zod.gt Zod.coerce_number 0 "Please enter an amount greater than $0.");
      ("status",
       Zod.enum ["pending"; "paid"]
         (Some {| Zod.invalid_type_error := Some "Please select an invoice status.";
                  Zod.required_error := None |}));
      ("date", Zod.string_ None) ].

Definition CreateInvoice : Zod.ZodObject := Zod.omit FormSchema ["id"; "date"].
Definition UpdateInvoice : Zod.ZodObject := Zod.omit FormSchema ["id"; "date"].

(** The object literal that every parse is given:
    [{ customerId: formData?.get('customerId'), amount: ..., status: ... }]. *)
Definition fields (formData : option FormData) : Zod.obj :=
  [ ("customerId", opt_get formData "customerId");
    ("amount", opt_get formData "amount");
    ("status", opt_get formData "status") ].

(** [schema.parse(data)]: the data of [safeParse], or its error thrown. *)
Definition parse {W} (schema : Zod.ZodObject) (data : Zod.obj) : M W Zod.obj :=
  match Zod.safeParse schema data with
  | Zod.success d => ret d
  | Zod.failure error => throw (ZodError error)
  end.

Definition validateInvoiceForms (formData : option FormData) : option State :=
  let validatedFields := Zod.safeParse CreateInvoice (fields formData) in
  match validatedFields with
  | Zod.failure error =>
      Some {| errors := Some (Zod.fieldErrors (Zod.flatten error));
              message := Some "Missing Fields. Failed to Create Invoice." |}
  | Zod.success _ => None
  end.

(** [s.split('T')[0]]: the text before the first [T]. *)
Fixpoint split_T_0 (s : string) : string :=
  match s with
  | EmptyString => EmptyString
  | String c r => if Ascii.eqb c "T" then EmptyString else String c (split_T_0 r)
  end.

Definition opt_str (id : option string) : Js.value :=
  match id with Some s => Js.Str s | None => Js.Undefined end.

Section WithEnv.
  Context {W : Type} (env : Env W).

(** In the three invoice actions the [try] block yields [Some v] where
    the source returns [v] from inside it, and [None] where control
    falls out of the block. *)

Definition createInvoice (prevState : option State)
    (formData : option FormData) : M W (option State) :=
  r ← try_catch
        (match validateInvoiceForms formData with
         | Some validationError => ret (Some validationError)
         | None =>
             parsed ← parse CreateInvoice (fields formData);
             let customerId := Zod.get parsed "customerId" in
             let amount := Zod.get parsed "amount" in
             let status := Zod.get parsed "status" in
             let amountInCents := Js.times amount (Js.Number (Num.of_Z 100)) in
             date ← gets (fun w => split_T_0 (Date_toISOString env w));
             call (EvSql (INSERT_invoices customerId amountInCents status (Js.Str date)))
               (sql env (INSERT_invoices customerId amountInCents status (Js.Str date)));;
             ret None
         end)
        (fun error =>
           ret (Some {| errors := None; message := Some "Something went wrong" |}));
  match r with
  | Some v => ret (Some v)
  | None =>
      call (EvRevalidateRedirectPath "/dashboard/invoices")
        (revalidateRedirectPath env "/dashboard/invoices");;
      ret None
  end.

Definition updateInvoice (id : option string) (prevState : option State)
    (formData : option FormData) : M W (option State) :=
  r ← try_catch
        (match validateInvoiceForms formData with
         | Some validationError => ret (Some validationError)
         | None =>
             parsed ← parse UpdateInvoice (fields formData);
             let customerId := Zod.get parsed "customerId" in
             let amount := Zod.get parsed "amount" in
             let status := Zod.get parsed "status" in
             let amountInCents := Js.times amount (Js.Number (Num.of_Z 100)) in
             call (EvSql (UPDATE_invoices customerId amountInCents status (opt_str id)))
               (sql env (UPDATE_invoices customerId amountInCents status (opt_str id)));;
             ret None
         end)
        (fun error =>
           ret (Some {| errors := None; message := Some "Somethign went wrong" |}));
  match r with
  | Some v => ret (Some v)
  | None =>
      call (EvRevalidateRedirectPath "/dashboard/invoices")
        (revalidateRedirectPath env "/dashboard/invoices");;
      ret None
  end.

Definition deleteInvoice (id : string) : M W State :=
  try_catch
    (call (EvSql (DELETE_invoices (Js.Str id)))
       (sql env (DELETE_invoices (Js.Str id)));;
     call (EvRevalidatePath "/dashboard/invoices")
       (revalidatePath env "/dashboard/invoices");;
     ret {| errors := None; message := Some "Deleted Invoice." |})
    (fun error =>
       ret {| errors := None; message := Some "Something went wrong" |}).

(** [authenticate] returns a message, or nothing ([None]); what it does
    not catch is thrown again. *)
Definition authenticate (prevState : option string) (formData : FormData)
  : M W (option string) :=
  try_catch
    (call (EvSignIn "credentials" formData) (signIn env "credentials" formData);;
     ret None)
    (fun error =>
       match error with
       | AuthError type =>
           if String.eqb type "CredentialsSignin"
           then ret (Some "Invalid credentials.")
           else ret (Some "Something went wrong.")
       | _ => throw error
       end).

End WithEnv.

End Actions.

(** ** A small in-memory world, for running the actions *)

Module Fixture.
Import Rt.

(** The world: the ids of the stored invoices, by order of insertion. *)
Definition World := list string.

Definition id_text (v : Js.value) : string :=
  match v with Js.Str s => s | _ => "" end.

Definition run_query (q : Query) (w : World) : World :=
  match q with
  | INSERT_invoices _ _ _ _ => (w ++ ["new"])%list
  | UPDATE_invoices _ _ _ _ => w
  | DELETE_invoices id => filter (fun i => negb (String.eqb i (id_text id))) w
  end.

(** An environment whose store, cache and verifier fail on demand. *)
Definition env (sql_fails : option JsError) (path_fails : option JsError)
    (signIn_fails : option JsError) : Env World :=
  {| sql := fun q w =>
       match sql_fails with
       | Some e => (Throw e, w)
       | None => (Normal tt, run_query q w)
       end;
     revalidatePath := fun _ w =>
       match path_fails with Some e => (Throw e, w) | None => (Normal tt, w) end;
     revalidateRedirectPath := fun _ w =>
       match path_fails with Some e => (Throw e, w) | None => (Normal tt, w) end;
     signIn := fun _ _ w =>
       match signIn_fails with Some e => (Throw e, w) | None => (Normal tt, w) end;
     Date_toISOString := fun _ => "2024-03-09T10:30:00.000Z" |}.

Definition ok_env : Env World := env None None None.

Definition start : Sys World := {| world := ["x"; "y"]; trace := [] |}.

Definition form (customerId amount status : string) : option FormData :=
  Some [ ("customerId", EntryString customerId);
         ("amount", EntryString amount);
         ("status", EntryString status) ].

End Fixture.

(** ** Vocabulary of the statements *)

Module Spec.
Import Rt Actions.

Definition field_names : list string := ["customerId"; "amount"; "status"].

(** The validator the schema of the forms has for a field. *)
Fixpoint validator_in (sh : Zod.RawShape) (k : string) : option Zod.ZodType :=
  match sh with
  | [] => None
  | (key, t) :: rest => if String.eqb key k then Some t else validator_in rest k
  end.

Definition validator (k : string) : option Zod.ZodType :=
  validator_in (Zod.shape CreateInvoice) k.

(** A field parsed on its own, by its own validator. *)
Definition field_parse (k : string) (formData : option FormData)
  : Zod.ParseReturn * list Zod.ZodIssue :=
  match validator k with
  | Some t => Zod._parse t [k] (opt_get formData k)
  | None => (Zod.OK Js.Undefined, [])
  end.

(** The field fails its validation rule. *)
Definition field_fails (k : string) (formData : option FormData) : bool :=
  negb (Zod.isValid (fst (field_parse k formData))).

Definition field_messages (k : string) (formData : option FormData)
  : list string :=
  map Zod.message (snd (field_parse k formData)).

(** The messages the validation of the whole form attaches to a field. *)
Definition field_errors (k : string) (formData : option FormData)
  : option (list string) :=
  match validateInvoiceForms formData with
  | Some st => match errors st with Some m => m !! k | None => None end
  | None => None
  end.

Definition missing_fields : string := "Missing Fields. Failed to Create Invoice.".

Definition only_message (m : string) : State :=
  {| errors := None; message := Some m |}.

(** The three validators of the forms, as the schema builds them. *)
Definition T_customerId : Zod.ZodType :=
  Zod.ZodString
    (Some {| Zod.invalid_type_error := Some "Please select a customer.";
             Zod.required_error := None |}).

Definition T_amount : Zod.ZodType :=
  Zod.ZodNumber true
    [Zod.Min 0 false (Some "Please enter an amount greater than $0.")]
    (Some {| Zod.invalid_type_error := None; Zod.required_error := None |}).

Definition T_status : Zod.ZodType :=
  Zod.ZodEnum ["pending"; "paid"]
    (Some {| Zod.invalid_type_error := Some "Please select an invoice status.";
             Zod.required_error := None |}).

(** An issue at the path of a field. *)
Definition issue (c : Zod.ZodIssueCode) (k m : string) : Zod.ZodIssue :=
  {| Zod.code := c; Zod.path := [k]; Zod.message := m |}.

(** The default message of the library for a string outside the
    enumeration. *)
Definition enum_message (s : string) : string :=
  "Invalid enum value. Expected 'pending' | 'paid', received '" +:+ s +:+ "'".

Definition logged {W} (s : Sys W) (w : W) (evs : list Event) : Sys W :=
  {| world := w; trace := (trace s ++ evs)%list |}.

Definition hundred : Js.value := Js.Number (Num.of_Z 100).

(** The statements the two forms issue from validated data. *)
Definition insert_of (d : Zod.obj) (date : string) : Query :=
  INSERT_invoices (Zod.get d "customerId")
    (Js.times (Zod.get d "amount") hundred) (Zod.get d "status") (Js.Str date).

Definition update_of (d : Zod.obj) (id : option string) : Query :=
  UPDATE_invoices (Zod.get d "customerId")
    (Js.times (Zod.get d "amount") hundred) (Zod.get d "status") (opt_str id).

Definition listing : string := "/dashboard/invoices".

(** The course of [createInvoice] and [updateInvoice] from the statement
    [q] on: a statement that raises is answered with the message of the
    [catch] block; one that completes is followed by the call of
    [revalidateRedirectPath], outside the [try]. *)
Definition after_statement {W} (env : Env W) (caught : string) (s : Sys W)
    (q : Query) : Completion (option State) * Sys W :=
  match sql env q (world s) with
  | (Throw _, w) => (Normal (Some (only_message caught)), logged s w [EvSql q])
  | (Normal _, w) =>
      match revalidateRedirectPath env listing w with
      | (Normal _, w') =>
          (Normal None, logged s w' [EvSql q; EvRevalidateRedirectPath listing])
      | (Throw e, w') =>
          (Throw e, logged s w' [EvSql q; EvRevalidateRedirectPath listing])
      end
  end.


(** *** Vocabulary of the further properties *)

(** The form has an entry of that name. *)
Definition has_entry (l : FormData) (k : string) : bool :=
  existsb (fun e => String.eqb (fst e) k) l.

(** [new Date().toISOString().split('T')[0]], read before the statement. *)
Definition today {W} (env : Env W) (s : Sys W) : string :=
  split_T_0 (Date_toISOString env (world s)).

(** [amount * 100], from the amount of the form as [Number] coerces it. *)
Definition amount_in_cents (formData : option FormData) : Js.value :=
  Js.Number (Num.mul (Js.ToNumber (opt_get formData "amount")) (Num.of_Z 100)).

(** The statements of the two forms, from the entries of the form. *)
Definition insert_for (formData : option FormData) (date : string) : Query :=
  INSERT_invoices (opt_get formData "customerId") (amount_in_cents formData)
    (opt_get formData "status") (Js.Str date).

Definition update_for (formData : option FormData) (id : option string) : Query :=
  UPDATE_invoices (opt_get formData "customerId") (amount_in_cents formData)
    (opt_get formData "status") (opt_str id).

(** The text has a [T]. *)
Fixpoint has_T (s : string) : bool :=
  match s with
  | EmptyString => false
  | String c r => Ascii.eqb c "T" || has_T r
  end.

(** [+0], a positive number or [+Infinity]: neither [NaN] nor negative. *)
Definition non_negative (x : Num.number) : bool :=
  match x with
  | S754_zero false | S754_finite false _ _ | S754_infinity false => true
  | _ => false
  end.

End Spec.

(** * Properties *)

Import Rt Actions Spec.

(** ** Validation, field by field *)

(** [omit] leaves the three fields of the forms, with the validators that
    [FormSchema] builds for them. *)
Lemma CreateInvoice_shape :
  Zod.shape CreateInvoice
  = [("customerId", T_customerId); ("amount", T_amount); ("status", T_status)].
Proof. reflexivity. Qed.

Lemma UpdateInvoice_shape : Zod.shape UpdateInvoice = Zod.shape CreateInvoice.
Proof. reflexivity. Qed.

(** The parse of the object is the parse of each field, in the order of the
    shape: the issues are those of the fields, one field after the other. *)
Lemma parseObject_fields fd :
  Zod._parseObject CreateInvoice (fields fd) =
  (Zod.mergeObjectSync (fields fd) false []
     [("customerId", fst (field_parse "customerId" fd));
      ("amount", fst (field_parse "amount" fd));
      ("status", fst (field_parse "status" fd))],
   (snd (field_parse "customerId" fd) ++ snd (field_parse "amount" fd)
      ++ snd (field_parse "status" fd))%list).
Proof.
  unfold Zod._parseObject, field_parse, validator. rewrite CreateInvoice_shape.
  cbn -[Zod._parse Zod.mergeObjectSync fields].
  change (Zod.get (fields fd) "customerId") with (opt_get fd "customerId").
  change (Zod.get (fields fd) "amount") with (opt_get fd "amount").
  change (Zod.get (fields fd) "status") with (opt_get fd "status").
  destruct (Zod._parse T_customerId _ _), (Zod._parse T_amount _ _),
    (Zod._parse T_status _ _).
  rewrite app_nil_r. reflexivity.
Qed.

Lemma parse_customerId fd :
  field_parse "customerId" fd =
  match opt_get fd "customerId" with
  | Js.Str s => (Zod.OK (Js.Str s), [])
  | Js.Undefined => (Zod.INVALID, [issue Zod.invalid_type "customerId" "Required"])
  | _ => (Zod.INVALID, [issue Zod.invalid_type "customerId" "Please select a customer."])
  end.
Proof.
  unfold field_parse. change (validator "customerId") with (Some T_customerId).
  destruct (opt_get fd "customerId") as [| |s|x|]; reflexivity.
Qed.

Lemma parse_amount fd :
  field_parse "amount" fd =
  let x := Js.ToNumber (opt_get fd "amount") in
  if Num.is_nan x
  then (Zod.INVALID, [issue Zod.invalid_type "amount" "Expected number, received nan"])
  else if Num.leb x Num.zero
       then (Zod.DIRTY (Js.Number x),
             [issue Zod.too_small "amount" "Please enter an amount greater than $0."])
       else (Zod.OK (Js.Number x), []).
Proof.
  unfold field_parse. change (validator "amount") with (Some T_amount).
  cbv zeta. unfold T_amount, Zod._parse.
  destruct (Js.ToNumber (opt_get fd "amount")) as [s|s| |s m e];
    try destruct s; reflexivity.
Qed.

Lemma parse_status fd :
  field_parse "status" fd =
  match opt_get fd "status" with
  | Js.Str s =>
      if (String.eqb s "pending" || String.eqb s "paid")%bool
      then (Zod.OK (Js.Str s), [])
      else (Zod.INVALID, [issue Zod.invalid_enum_value "status" (enum_message s)])
  | Js.Undefined => (Zod.INVALID, [issue Zod.invalid_type "status" "Required"])
  | _ => (Zod.INVALID,
          [issue Zod.invalid_type "status" "Please select an invoice status."])
  end.
Proof.
  unfold field_parse. change (validator "status") with (Some T_status).
  destruct (opt_get fd "status") as [| |s|x|]; try reflexivity.
  unfold T_status, Zod._parse. cbn [existsb]. rewrite orb_false_r.
  destruct (_ || _)%bool; reflexivity.
Qed.

(** A field either passes, with no issue, or does not, with exactly one
    issue, at its own path. *)
Lemma field_parse_cases k fd :
  In k field_names ->
  (exists v, field_parse k fd = (Zod.OK v, [])) \/
  (exists r c m, field_parse k fd = (r, [issue c k m]) /\ Zod.isValid r = false).
Proof.
  intros [<-|[<-|[<-|[]]]].
  - rewrite parse_customerId. destruct (opt_get fd "customerId"); eauto 10.
  - rewrite parse_amount. cbv zeta.
    destruct (Num.is_nan _); [eauto 10|]. destruct (Num.leb _ _); eauto 10.
  - rewrite parse_status. destruct (opt_get fd "status"); eauto 10.
    destruct (_ || _)%bool; eauto 10.
Qed.

(** The object literal has the three keys, so each is set in the result. *)
Lemma set_key_fields fd k v o :
  In k field_names -> Zod.set_key (fields fd) k v o = (o ++ [(k, v)])%list.
Proof.
  intros Hk. unfold Zod.set_key.
  assert (bool_decide (is_Some (Zod.prop (fields fd) k)) = true) as ->.
  { apply bool_decide_eq_true. destruct Hk as [<-|[<-|[<-|[]]]]; cbn; eauto. }
  now rewrite orb_true_r.
Qed.

(** Closes the case of a field that fails although it is said to pass. *)
Ltac passes_not E H Hr :=
  rewrite E in H; cbn in H; rewrite Hr in H; discriminate.

(** When no field fails, [safeParse] succeeds with the three values. *)
Lemma validate_pass fd :
  field_fails "customerId" fd = false ->
  field_fails "amount" fd = false ->
  field_fails "status" fd = false ->
  exists c a s,
    field_parse "customerId" fd = (Zod.OK c, []) /\
    field_parse "amount" fd = (Zod.OK a, []) /\
    field_parse "status" fd = (Zod.OK s, []) /\
    Zod.safeParse CreateInvoice (fields fd)
    = Zod.success [("customerId", c); ("amount", a); ("status", s)].
Proof.
  unfold field_fails. intros Hc Ha Hs.
  destruct (field_parse_cases "customerId" fd ltac:(cbn; auto))
    as [[c Ec]|(r & ? & ? & E & Hr)]; [|passes_not E Hc Hr].
  destruct (field_parse_cases "amount" fd ltac:(cbn; auto))
    as [[a Ea]|(r & ? & ? & E & Hr)]; [|passes_not E Ha Hr].
  destruct (field_parse_cases "status" fd ltac:(cbn; auto))
    as [[s Es]|(r & ? & ? & E & Hr)]; [|passes_not E Hs Hr].
  exists c, a, s. repeat split; auto.
  unfold Zod.safeParse. rewrite parseObject_fields, Ec, Ea, Es.
  cbn [fst snd Zod.mergeObjectSync].
  rewrite !set_key_fields by (cbn; auto). reflexivity.
Qed.

(** [validateInvoiceForms] by the result of [safeParse]. *)
Lemma validate_eq fd :
  validateInvoiceForms fd =
  match Zod.safeParse CreateInvoice (fields fd) with
  | Zod.failure error =>
      Some {| errors := Some (Zod.fieldErrors (Zod.flatten error));
              message := Some missing_fields |}
  | Zod.success _ => None
  end.
Proof. reflexivity. Qed.

(** When a field fails, [safeParse] fails with the issues of the fields. *)
Lemma safeParse_fail fd :
  (field_fails "customerId" fd || field_fails "amount" fd
   || field_fails "status" fd)%bool = true ->
  Zod.safeParse CreateInvoice (fields fd)
  = Zod.failure (snd (field_parse "customerId" fd) ++ snd (field_parse "amount" fd)
                   ++ snd (field_parse "status" fd))%list.
Proof.
  unfold field_fails, Zod.safeParse. rewrite parseObject_fields.
  destruct (field_parse "customerId" fd) as [[| |] ?];
    destruct (field_parse "amount" fd) as [[| |] ?];
    destruct (field_parse "status" fd) as [[| |] ?];
    cbn [fst snd Zod.mergeObjectSync Zod.isValid negb orb];
    rewrite ?set_key_fields by (cbn; auto); try reflexivity; discriminate.
Qed.

(** [flatten] files the issues of a field under its name. *)
Lemma flatten_fields fd k :
  In k field_names ->
  Zod.fieldErrors
    (Zod.flatten (snd (field_parse "customerId" fd) ++ snd (field_parse "amount" fd)
                    ++ snd (field_parse "status" fd))%list) !! k
  = if field_fails k fd then Some (field_messages k fd) else None.
Proof.
  intros Hk. unfold field_fails, field_messages.
  destruct Hk as [<-|[<-|[<-|[]]]];
  destruct (field_parse_cases "customerId" fd ltac:(cbn; auto))
    as [[? ->]|(? & ? & ? & -> & Hc)];
  destruct (field_parse_cases "amount" fd ltac:(cbn; auto))
    as [[? ->]|(? & ? & ? & -> & Ha)];
  destruct (field_parse_cases "status" fd ltac:(cbn; auto))
    as [[? ->]|(? & ? & ? & -> & Hs)];
  cbn [fst snd app Zod.flatten fold_left Zod.flatten_step Zod.path issue
       Zod.formErrors Zod.fieldErrors Zod.message map Zod.isValid negb];
  rewrite ?Hc, ?Ha, ?Hs; cbn [negb]; simplify_map_eq; reflexivity.
Qed.

(** The messages the validation of the form attaches to a field are those
    of the field parsed on its own. *)
Lemma field_errors_spec k fd :
  In k field_names ->
  field_errors k fd = if field_fails k fd then Some (field_messages k fd) else None.
Proof.
  intros Hk. unfold field_errors. rewrite validate_eq.
  destruct (field_fails "customerId" fd || field_fails "amount" fd
            || field_fails "status" fd)%bool eqn:E.
  - rewrite (safeParse_fail fd E). cbn [errors]. now apply flatten_fields.
  - apply orb_false_elim in E as [E Es]. apply orb_false_elim in E as [Ec Ea].
    destruct (validate_pass fd Ec Ea Es) as (c & a & s & _ & _ & _ & ->).
    destruct Hk as [<-|[<-|[<-|[]]]]; now rewrite ?Ec, ?Ea, ?Es.
Qed.

(** ** The two forms, step by step *)

Ltac run_action :=
  unfold mbind, mret, M_bind, M_ret, bind, try_catch, call, gets, ret, throw, logged;
  cbn [world trace].

Section ActionLemmas.
  Context {W : Type} (env : Env W).

(** A form that fails validation is answered at once, with nothing done. *)
Lemma createInvoice_invalid prev fd s v :
  validateInvoiceForms fd = Some v ->
  createInvoice env prev fd s = (Normal (Some v), s).
Proof. intros H. unfold createInvoice. rewrite H. reflexivity. Qed.

Lemma updateInvoice_invalid id prev fd s v :
  validateInvoiceForms fd = Some v ->
  updateInvoice env id prev fd s = (Normal (Some v), s).
Proof. intros H. unfold updateInvoice. rewrite H. reflexivity. Qed.

(** A form that passes validation leads to the statement. *)
Lemma createInvoice_valid prev fd s d :
  Zod.safeParse CreateInvoice (fields fd) = Zod.success d ->
  createInvoice env prev fd s
  = after_statement env "Something went wrong" s
      (insert_of d (split_T_0 (Date_toISOString env (world s)))).
Proof.
  intros H. unfold createInvoice, after_statement, parse.
  rewrite validate_eq, H. run_action.
  destruct (sql env _ _) as [[[]|e] w]; [|reflexivity].
  cbn [world trace].
  destruct (revalidateRedirectPath env _ _) as [[[]|e] w'];
    now rewrite <- app_assoc.
Qed.

Lemma updateInvoice_valid id prev fd s d :
  Zod.safeParse CreateInvoice (fields fd) = Zod.success d ->
  updateInvoice env id prev fd s
  = after_statement env "Somethign went wrong" s (update_of d id).
Proof.
  intros H. unfold updateInvoice, after_statement, parse.
  rewrite validate_eq. change UpdateInvoice with CreateInvoice. rewrite H.
  run_action.
  destruct (sql env _ _) as [[[]|e] w]; [|reflexivity].
  cbn [world trace].
  destruct (revalidateRedirectPath env _ _) as [[[]|e] w'];
    now rewrite <- app_assoc.
Qed.
End ActionLemmas.

(** A field that fails has a message. *)
Lemma failing_field_has_message k fd :
  In k field_names -> field_fails k fd = true ->
  exists m, field_messages k fd = [m].
Proof.
  intros Hk. unfold field_fails, field_messages.
  destruct (field_parse_cases k fd Hk) as [[v ->]|(r & c & m & -> & Hr)].
  - discriminate.
  - intros _. now exists m.
Qed.

(** ** The claims *)

(** C1.  Whenever at least one of [customerId], [amount] and [status] fails
    its validation rule, [createInvoice] and [updateInvoice] both return the
    result whose message is "Missing Fields. Failed to Create Invoice." and
    whose [errors] hold, for every failing field (not only the first), the
    messages of that field; the system is left as it was: no capability is
    called, so no statement is issued. *)
Theorem failed_validation_reports_every_field :
  forall (W : Type) (env : Env W) (id : option string) (prev : option State)
         (fd : option FormData) (s : Sys W),
    field_fails "customerId" fd = true \/ field_fails "amount" fd = true
    \/ field_fails "status" fd = true ->
    exists errs : gmap string (list string),
      createInvoice env prev fd s
      = (Normal (Some {| errors := Some errs;
                         message := Some "Missing Fields. Failed to Create Invoice." |}), s)
      /\ updateInvoice env id prev fd s
         = (Normal (Some {| errors := Some errs;
                            message := Some "Missing Fields. Failed to Create Invoice." |}), s)
      /\ (forall k, In k field_names -> field_fails k fd = true ->
          exists m, errs !! k = Some [m] /\ field_messages k fd = [m])
      /\ statements (trace (snd (createInvoice env prev fd s))) = statements (trace s)
      /\ statements (trace (snd (updateInvoice env id prev fd s))) = statements (trace s).
Proof.
  intros W env id prev fd s H.
  assert ((field_fails "customerId" fd || field_fails "amount" fd
           || field_fails "status" fd)%bool = true) as E.
  { destruct H as [->|[->| ->]]; now rewrite ?orb_true_r. }
  pose proof (validate_eq fd) as V. rewrite (safeParse_fail fd E) in V.
  eexists. rewrite (createInvoice_invalid env prev fd s _ V).
  rewrite (updateInvoice_invalid env id prev fd s _ V).
  repeat split; try reflexivity.
  intros k Hk Hf. destruct (failing_field_has_message k fd Hk Hf) as [m Hm].
  exists m. split; [|assumption].
  rewrite (flatten_fields fd k Hk), Hf. now rewrite Hm.
Qed.

Lemma failed_validation_reports_every_field_witness :
  (field_fails "customerId" (Fixture.form "c1" "0" "bad") = true
   \/ field_fails "amount" (Fixture.form "c1" "0" "bad") = true
   \/ field_fails "status" (Fixture.form "c1" "0" "bad") = true)
  /\ exists errs : gmap string (list string),
      createInvoice Fixture.ok_env None (Fixture.form "c1" "0" "bad") Fixture.start
      = (Normal (Some {| errors := Some errs;
                         message := Some "Missing Fields. Failed to Create Invoice." |}),
         Fixture.start)
      /\ updateInvoice Fixture.ok_env (Some "x") None (Fixture.form "c1" "0" "bad")
           Fixture.start
         = (Normal (Some {| errors := Some errs;
                            message := Some "Missing Fields. Failed to Create Invoice." |}),
            Fixture.start)
      /\ (forall k, In k field_names ->
          field_fails k (Fixture.form "c1" "0" "bad") = true ->
          exists m, errs !! k = Some [m]
                    /\ field_messages k (Fixture.form "c1" "0" "bad") = [m])
      /\ statements (trace (snd (createInvoice Fixture.ok_env None
                                   (Fixture.form "c1" "0" "bad") Fixture.start)))
         = statements (trace Fixture.start)
      /\ statements (trace (snd (updateInvoice Fixture.ok_env (Some "x") None
                                   (Fixture.form "c1" "0" "bad") Fixture.start)))
         = statements (trace Fixture.start).
Proof.
  split.
  - right; left. reflexivity.
  - apply (failed_validation_reports_every_field
             Fixture.World Fixture.ok_env (Some "x") None
             (Fixture.form "c1" "0" "bad") Fixture.start).
    right; left. reflexivity.
Defined.

(** ** What a form that passes validation looks like *)

Lemma positive_of_checks (x : Num.number) :
  Num.is_nan x = false -> Num.leb x Num.zero = false -> Num.ltb Num.zero x = true.
Proof. destruct x as [[]|[]| |[] m e]; cbn; congruence. Qed.

Lemma checks_of_positive (x : Num.number) :
  Num.ltb Num.zero x = true -> Num.is_nan x = false /\ Num.leb x Num.zero = false.
Proof. destruct x as [[]|[]| |[] m e]; cbn; intuition congruence. Qed.

Lemma safeParse_success_inv fd d :
  Zod.safeParse CreateInvoice (fields fd) = Zod.success d ->
  exists c st,
    opt_get fd "customerId" = Js.Str c
    /\ opt_get fd "status" = Js.Str st
    /\ (st = "pending" \/ st = "paid")
    /\ Num.ltb Num.zero (Js.ToNumber (opt_get fd "amount")) = true
    /\ d = [("customerId", Js.Str c);
            ("amount", Js.Number (Js.ToNumber (opt_get fd "amount")));
            ("status", Js.Str st)].
Proof.
  intros H.
  destruct (field_fails "customerId" fd || field_fails "amount" fd
            || field_fails "status" fd)%bool eqn:E.
  { rewrite (safeParse_fail fd E) in H. discriminate. }
  apply orb_false_elim in E as [E Es]. apply orb_false_elim in E as [Ec Ea].
  destruct (validate_pass fd Ec Ea Es) as (c & a & s & Hc & Ha & Hs & Hd).
  rewrite Hd in H. injection H as <-.
  rewrite parse_customerId in Hc. rewrite parse_amount in Ha.
  rewrite parse_status in Hs. cbv zeta in Ha.
  destruct (opt_get fd "customerId") as [| |c'| |]; try discriminate.
  destruct (opt_get fd "status") as [| |st| |]; try discriminate.
  destruct (Num.is_nan _) eqn:Hnan; [discriminate|].
  destruct (Num.leb _ _) eqn:Hle; [discriminate|].
  destruct (_ || _)%bool eqn:Hst; [|discriminate].
  injection Hc as <-. injection Ha as <-. injection Hs as <-.
  exists c', st. repeat split; auto using positive_of_checks.
  apply orb_true_iff in Hst as [Hst|Hst]; apply String.eqb_eq in Hst; auto.
Qed.

Lemma validate_None_inv fd :
  validateInvoiceForms fd = None ->
  exists d, Zod.safeParse CreateInvoice (fields fd) = Zod.success d.
Proof.
  rewrite validate_eq. destruct (Zod.safeParse _ _) as [d|]; [eauto|discriminate].
Qed.

Lemma statements_app (t u : list Event) :
  statements (t ++ u) = (statements t ++ statements u)%list.
Proof. apply flat_map_app. Qed.

(** However the statement and the call after it end, the statement is the
    one statement issued. *)
Lemma after_statement_statements {W} (env : Env W) caught s q :
  statements (trace (snd (after_statement env caught s q)))
  = (statements (trace s) ++ [q])%list.
Proof.
  unfold after_statement.
  destruct (sql env q (world s)) as [[[]|e] w].
  - destruct (revalidateRedirectPath env listing w) as [[[]|e] w'];
      cbn [snd logged trace]; now rewrite statements_app.
  - cbn [snd logged trace]. now rewrite statements_app.
Qed.

(** The message of the [catch] block is the result only when the statement
    raised. *)
Lemma after_statement_caught {W} (env : Env W) caught s q st :
  fst (after_statement env caught s q) = Normal (Some st) ->
  exists e w, sql env q (world s) = (Throw e, w).
Proof.
  unfold after_statement.
  destruct (sql env q (world s)) as [[[]|e] w]; [|eauto].
  destruct (revalidateRedirectPath env listing w) as [[[]|e] w']; discriminate.
Qed.

(** C9.  When [safeParse] accepts the form, the second parse of the same
    input ([CreateInvoice.parse], [UpdateInvoice.parse]) returns the same
    data and throws nothing; both actions go on to their statement, and the
    result of the [catch] block can only come from a statement that
    raised. *)
Theorem second_parse_succeeds :
  forall (W : Type) (env : Env W) (id : option string) (prev : option State)
         (fd : option FormData) (s : Sys W) (d : Zod.obj),
    Zod.safeParse CreateInvoice (fields fd) = Zod.success d ->
    parse CreateInvoice (fields fd) s = (Normal d, s)
    /\ parse UpdateInvoice (fields fd) s = (Normal d, s)
    /\ createInvoice env prev fd s
       = after_statement env "Something went wrong" s
           (insert_of d (split_T_0 (Date_toISOString env (world s))))
    /\ updateInvoice env id prev fd s
       = after_statement env "Somethign went wrong" s (update_of d id)
    /\ (forall st, fst (createInvoice env prev fd s) = Normal (Some st) ->
        exists e w,
          sql env (insert_of d (split_T_0 (Date_toISOString env (world s))))
            (world s) = (Throw e, w))
    /\ (forall st, fst (updateInvoice env id prev fd s) = Normal (Some st) ->
        exists e w, sql env (update_of d id) (world s) = (Throw e, w)).
Proof.
  intros W env id prev fd s d H.
  assert (parse CreateInvoice (fields fd) s = (Normal d, s)) as P
    by (unfold parse; now rewrite H).
  repeat split.
  - exact P.
  - exact P.
  - now apply createInvoice_valid.
  - now apply updateInvoice_valid.
  - intros st. rewrite (createInvoice_valid env prev fd s d H).
    apply after_statement_caught.
  - intros st. rewrite (updateInvoice_valid env id prev fd s d H).
    apply after_statement_caught.
Qed.

Lemma second_parse_succeeds_witness :
  Zod.safeParse CreateInvoice (fields (Fixture.form "c1" "10" "pending"))
  = Zod.success [("customerId", Js.Str "c1"); ("amount", Js.Number (Num.of_Z 10));
                 ("status", Js.Str "pending")]
  /\ parse CreateInvoice (fields (Fixture.form "c1" "10" "pending")) Fixture.start
     = (Normal [("customerId", Js.Str "c1"); ("amount", Js.Number (Num.of_Z 10));
                ("status", Js.Str "pending")], Fixture.start)
  /\ parse UpdateInvoice (fields (Fixture.form "c1" "10" "pending")) Fixture.start
     = (Normal [("customerId", Js.Str "c1"); ("amount", Js.Number (Num.of_Z 10));
                ("status", Js.Str "pending")], Fixture.start).
Proof.
  split; [reflexivity|].
  pose proof (second_parse_succeeds Fixture.World Fixture.ok_env (Some "x") None
                (Fixture.form "c1" "10" "pending") Fixture.start
                [("customerId", Js.Str "c1"); ("amount", Js.Number (Num.of_Z 10));
                 ("status", Js.Str "pending")] eq_refl) as (P1 & P2 & _).
  exact (conj P1 P2).
Defined.

(** ** The amount that is persisted *)

(** C5, as the code has it.  For every form that passes validation, the
    amount coerces to a number [x] strictly greater than 0, and the one
    statement [createInvoice] and [updateInvoice] issue binds the binary64
    product of [x] and 100 (with the customer and the status of the form):
    nothing rounds that product to an integer. *)
Theorem persisted_amount_is_the_float_product :
  forall (W : Type) (env : Env W) (id : option string) (prev : option State)
         (fd : option FormData) (s : Sys W),
    validateInvoiceForms fd = None ->
    exists (c st : string) (x : Num.number),
      opt_get fd "customerId" = Js.Str c
      /\ opt_get fd "status" = Js.Str st
      /\ Js.ToNumber (opt_get fd "amount") = x
      /\ Num.ltb Num.zero x = true
      /\ statements (trace (snd (createInvoice env prev fd s)))
         = (statements (trace s)
            ++ [INSERT_invoices (Js.Str c) (Js.Number (Num.mul x (Num.of_Z 100)))
                  (Js.Str st)
                  (Js.Str (split_T_0 (Date_toISOString env (world s))))])%list
      /\ statements (trace (snd (updateInvoice env id prev fd s)))
         = (statements (trace s)
            ++ [UPDATE_invoices (Js.Str c) (Js.Number (Num.mul x (Num.of_Z 100)))
                  (Js.Str st) (opt_str id)])%list.
Proof.
  intros W env id prev fd s V.
  destruct (validate_None_inv fd V) as [d Hd].
  destruct (safeParse_success_inv fd d Hd) as (c & st & Hc & Hst & _ & Hpos & ->).
  exists c, st, (Js.ToNumber (opt_get fd "amount")).
  rewrite (createInvoice_valid env prev fd s _ Hd).
  rewrite (updateInvoice_valid env id prev fd s _ Hd).
  rewrite !after_statement_statements.
  repeat split; auto.
Qed.

Lemma persisted_amount_is_the_float_product_witness :
  validateInvoiceForms (Fixture.form "c1" "45.5" "pending") = None
  /\ exists (c st : string) (x : Num.number),
      opt_get (Fixture.form "c1" "45.5" "pending") "customerId" = Js.Str c
      /\ opt_get (Fixture.form "c1" "45.5" "pending") "status" = Js.Str st
      /\ Js.ToNumber (opt_get (Fixture.form "c1" "45.5" "pending") "amount") = x
      /\ Num.ltb Num.zero x = true
      /\ statements (trace (snd (createInvoice Fixture.ok_env None
                                   (Fixture.form "c1" "45.5" "pending") Fixture.start)))
         = (statements (trace Fixture.start)
            ++ [INSERT_invoices (Js.Str c) (Js.Number (Num.mul x (Num.of_Z 100)))
                  (Js.Str st)
                  (Js.Str (split_T_0 (Date_toISOString Fixture.ok_env
                                        (world Fixture.start))))])%list
      /\ statements (trace (snd (updateInvoice Fixture.ok_env (Some "x") None
                                   (Fixture.form "c1" "45.5" "pending") Fixture.start)))
         = (statements (trace Fixture.start)
            ++ [UPDATE_invoices (Js.Str c) (Js.Number (Num.mul x (Num.of_Z 100)))
                  (Js.Str st) (opt_str (Some "x"))])%list.
Proof.
  split.
  - reflexivity.
  - apply (persisted_amount_is_the_float_product
             Fixture.World Fixture.ok_env (Some "x") None
             (Fixture.form "c1" "45.5" "pending") Fixture.start).
    reflexivity.
Defined.

(** The amount 45.5 is persisted as 4550. *)
Example amount_45_5_is_4550 :
  Num.mul (Js.ToNumber (Js.Str "45.5")) (Num.of_Z 100) = Num.of_Z 4550
  /\ statements (trace (snd (createInvoice Fixture.ok_env None
                               (Fixture.form "c1" "45.5" "pending") Fixture.start)))
     = [INSERT_invoices (Js.Str "c1") (Js.Number (Num.of_Z 4550)) (Js.Str "pending")
          (Js.Str "2024-03-09")].
Proof. split; vm_compute; reflexivity. Qed.

(** C5 fails as stated: the amounts 0.005 and 1.1 pass validation and are
    strictly greater than 0, and the statements bind 0.5 and
    110.00000000000001 (7740561859543041 * 2^-46), neither an integer. *)
Lemma persisted_amount_need_not_be_an_integer :
  validateInvoiceForms (Fixture.form "c1" "0.005" "paid") = None
  /\ Num.ltb Num.zero (Js.ToNumber (Js.Str "0.005")) = true
  /\ statements (trace (snd (createInvoice Fixture.ok_env None
                               (Fixture.form "c1" "0.005" "paid") Fixture.start)))
     = [INSERT_invoices (Js.Str "c1")
          (Js.Number (S754_finite false 4503599627370496 (-53)))
          (Js.Str "paid") (Js.Str "2024-03-09")]
  /\ Num.is_integer (S754_finite false 4503599627370496 (-53)) = false
  /\ validateInvoiceForms (Fixture.form "c1" "1.1" "paid") = None
  /\ statements (trace (snd (updateInvoice Fixture.ok_env (Some "x") None
                               (Fixture.form "c1" "1.1" "paid") Fixture.start)))
     = [UPDATE_invoices (Js.Str "c1")
          (Js.Number (S754_finite false 7740561859543041 (-46)))
          (Js.Str "paid") (Js.Str "x")]
  /\ Num.is_integer (S754_finite false 7740561859543041 (-46)) = false
  /\ Num.to_Z (S754_finite false 7740561859543041 (-46)) = None.
Proof. repeat split; vm_compute; reflexivity. Qed.

(** ** The message of a failed update *)

(** C2, on the code: with a form that passes validation and a store that
    raises, [updateInvoice] raises nothing and returns the message of its
    [catch] block, which reads "Somethign went wrong" (the one of
    [createInvoice] reads "Something went wrong"). *)
Theorem updateInvoice_failure_message_is_misspelt :
  updateInvoice (Fixture.env (Some (OtherError "connection refused")) None None)
    (Some "x") None (Fixture.form "c1" "10" "pending") Fixture.start
  = (Normal (Some {| errors := None; message := Some "Somethign went wrong" |}),
     {| world := ["x"; "y"];
        trace := [EvSql (UPDATE_invoices (Js.Str "c1") (Js.Number (Num.of_Z 1000))
                           (Js.Str "pending") (Js.Str "x"))] |})
  /\ createInvoice (Fixture.env (Some (OtherError "connection refused")) None None)
       None (Fixture.form "c1" "10" "pending") Fixture.start
     = (Normal (Some {| errors := None; message := Some "Something went wrong" |}),
        {| world := ["x"; "y"];
           trace := [EvSql (INSERT_invoices (Js.Str "c1") (Js.Number (Num.of_Z 1000))
                              (Js.Str "pending") (Js.Str "2024-03-09"))] |}).
Proof. split; vm_compute; reflexivity. Qed.

(** Whatever the form and the error, a statement that raises in
    [updateInvoice] is answered with that message, and nothing is thrown. *)
Lemma updateInvoice_failure_contained {W} (env : Env W) id prev fd s d e w :
  Zod.safeParse CreateInvoice (fields fd) = Zod.success d ->
  sql env (update_of d id) (world s) = (Throw e, w) ->
  updateInvoice env id prev fd s
  = (Normal (Some (only_message "Somethign went wrong")),
     logged s w [EvSql (update_of d id)]).
Proof.
  intros H E. rewrite (updateInvoice_valid env id prev fd s d H).
  unfold after_statement. now rewrite E.
Qed.

(** ** [deleteInvoice] *)

Section Delete.
  Context {W : Type} (env : Env W).

(** The three courses of [deleteInvoice]. *)
Lemma deleteInvoice_cases (id : string) (s : Sys W) :
  deleteInvoice env id s =
  match sql env (DELETE_invoices (Js.Str id)) (world s) with
  | (Throw _, w) =>
      (Normal (only_message "Something went wrong"),
       logged s w [EvSql (DELETE_invoices (Js.Str id))])
  | (Normal _, w) =>
      match revalidatePath env listing w with
      | (Normal _, w') =>
          (Normal (only_message "Deleted Invoice."),
           logged s w' [EvSql (DELETE_invoices (Js.Str id)); EvRevalidatePath listing])
      | (Throw _, w') =>
          (Normal (only_message "Something went wrong"),
           logged s w' [EvSql (DELETE_invoices (Js.Str id)); EvRevalidatePath listing])
      end
  end.
Proof.
  unfold deleteInvoice. run_action.
  destruct (sql env _ _) as [[[]|e] w]; [|reflexivity].
  cbn [world trace].
  destruct (revalidatePath env _ _) as [[[]|e] w']; now rewrite <- app_assoc.
Qed.
End Delete.

(** C6, as the code has it.  For every [id], [deleteInvoice] validates
    nothing (its first call is the delete statement for that very [id]) and
    throws nothing.  When the statement raises, the result is exactly
    "Something went wrong" and the invalidation is not called.  When the
    statement completes, the invalidation of the listing path is called
    next, and when that completes too the result is exactly
    "Deleted Invoice.". *)
Theorem deleteInvoice_contains_failures :
  forall (W : Type) (env : Env W) (id : string) (s : Sys W),
    (exists r s', deleteInvoice env id s = (Normal r, s')
                  /\ exists rest, trace s'
                       = (trace s ++ EvSql (DELETE_invoices (Js.Str id)) :: rest)%list)
    /\ (forall e w,
          sql env (DELETE_invoices (Js.Str id)) (world s) = (Throw e, w) ->
          deleteInvoice env id s
          = (Normal {| errors := None; message := Some "Something went wrong" |},
             {| world := w;
                trace := (trace s ++ [EvSql (DELETE_invoices (Js.Str id))])%list |}))
    /\ (forall w,
          sql env (DELETE_invoices (Js.Str id)) (world s) = (Normal tt, w) ->
          trace (snd (deleteInvoice env id s))
          = (trace s ++ [EvSql (DELETE_invoices (Js.Str id));
                         EvRevalidatePath "/dashboard/invoices"])%list)
    /\ (forall w w',
          sql env (DELETE_invoices (Js.Str id)) (world s) = (Normal tt, w) ->
          revalidatePath env "/dashboard/invoices" w = (Normal tt, w') ->
          deleteInvoice env id s
          = (Normal {| errors := None; message := Some "Deleted Invoice." |},
             {| world := w';
                trace := (trace s ++ [EvSql (DELETE_invoices (Js.Str id));
                                      EvRevalidatePath "/dashboard/invoices"])%list |})).
Proof.
  intros W env id s. rewrite (deleteInvoice_cases env id s).
  repeat split.
  - destruct (sql env _ _) as [[[]|e] w]; [|eauto].
    destruct (revalidatePath env listing w) as [[[]|e] w']; eauto.
  - intros e w ->. reflexivity.
  - intros w ->. destruct (revalidatePath env listing w) as [[[]|e] w']; reflexivity.
  - intros w w' ->. unfold listing. intros ->. reflexivity.
Qed.

(** C6 fails as stated: here the delete statement completes (the invoice
    [x] leaves the store) and the invalidation raises; the result is
    "Something went wrong", not "Deleted Invoice.". *)
Lemma deleteInvoice_success_needs_the_invalidation :
  sql (Fixture.env None (Some (OtherError "no request scope")) None)
    (DELETE_invoices (Js.Str "x")) (world Fixture.start)
  = (Normal tt, ["y"])
  /\ deleteInvoice (Fixture.env None (Some (OtherError "no request scope")) None)
       "x" Fixture.start
     = (Normal {| errors := None; message := Some "Something went wrong" |},
        {| world := ["y"];
           trace := [EvSql (DELETE_invoices (Js.Str "x"));
                     EvRevalidatePath "/dashboard/invoices"] |}).
Proof. split; reflexivity. Qed.

(** C10.  [deleteInvoice] returns "Deleted Invoice." exactly when both the
    delete statement and the invalidation that follows it complete.  When
    the statement completes and the invalidation raises, the caller gets
    "Something went wrong" although the statement was run: the world is the
    one the statement left, as the invalidation found it. *)
Theorem deleteInvoice_success_message_iff :
  forall (W : Type) (env : Env W) (id : string) (s : Sys W),
    (fst (deleteInvoice env id s)
     = Normal {| errors := None; message := Some "Deleted Invoice." |}
     <-> exists w w',
          sql env (DELETE_invoices (Js.Str id)) (world s) = (Normal tt, w)
          /\ revalidatePath env "/dashboard/invoices" w = (Normal tt, w'))
    /\ (forall w e w',
          sql env (DELETE_invoices (Js.Str id)) (world s) = (Normal tt, w) ->
          revalidatePath env "/dashboard/invoices" w = (Throw e, w') ->
          deleteInvoice env id s
          = (Normal {| errors := None; message := Some "Something went wrong" |},
             {| world := w';
                trace := (trace s ++ [EvSql (DELETE_invoices (Js.Str id));
                                      EvRevalidatePath "/dashboard/invoices"])%list |})).
Proof.
  intros W env id s. rewrite (deleteInvoice_cases env id s). split; [split|].
  - destruct (sql env _ _) as [[[]|e] w]; [|discriminate].
    destruct (revalidatePath env listing w) as [[[]|e] w'] eqn:E; [|discriminate].
    intros _. exists w, w'. split; [reflexivity|exact E].
  - intros (w & w' & -> & E). unfold listing. now rewrite E.
  - intros w e w' ->. unfold listing. intros ->. reflexivity.
Qed.

Lemma deleteInvoice_success_message_iff_witness :
  sql (Fixture.env None (Some (OtherError "no request scope")) None)
    (DELETE_invoices (Js.Str "x")) (world Fixture.start)
  = (Normal tt, ["y"])
  /\ revalidatePath (Fixture.env None (Some (OtherError "no request scope")) None)
       "/dashboard/invoices" ["y"]
     = (Throw (OtherError "no request scope"), ["y"])
  /\ deleteInvoice (Fixture.env None (Some (OtherError "no request scope")) None)
       "x" Fixture.start
     = (Normal {| errors := None; message := Some "Something went wrong" |},
        {| world := ["y"];
           trace := (trace Fixture.start
                     ++ [EvSql (DELETE_invoices (Js.Str "x"));
                         EvRevalidatePath "/dashboard/invoices"])%list |}).
Proof.
  split; [reflexivity|]. split; [reflexivity|].
  exact (proj2 (deleteInvoice_success_message_iff Fixture.World
                  (Fixture.env None (Some (OtherError "no request scope")) None)
                  "x" Fixture.start)
           ["y"] (OtherError "no request scope") ["y"] eq_refl eq_refl).
Defined.

Lemma deleteInvoice_contains_failures_witness :
  sql Fixture.ok_env (DELETE_invoices (Js.Str "x")) (world Fixture.start)
  = (Normal tt, ["y"])
  /\ revalidatePath Fixture.ok_env "/dashboard/invoices" ["y"] = (Normal tt, ["y"])
  /\ deleteInvoice Fixture.ok_env "x" Fixture.start
     = (Normal {| errors := None; message := Some "Deleted Invoice." |},
        {| world := ["y"];
           trace := (trace Fixture.start
                     ++ [EvSql (DELETE_invoices (Js.Str "x"));
                         EvRevalidatePath "/dashboard/invoices"])%list |}).
Proof.
  split; [reflexivity|]. split; [reflexivity|].
  exact (proj2 (proj2 (proj2 (deleteInvoice_contains_failures Fixture.World
                                Fixture.ok_env "x" Fixture.start)))
           ["y"] ["y"] eq_refl eq_refl).
Defined.

(** ** [authenticate] *)

Section Authenticate.
  Context {W : Type} (env : Env W).

Lemma authenticate_cases prev (fd : FormData) (s : Sys W) :
  authenticate env prev fd s =
  match signIn env "credentials" fd (world s) with
  | (Normal _, w) => (Normal None, logged s w [EvSignIn "credentials" fd])
  | (Throw (AuthError type), w) =>
      (Normal (Some (if String.eqb type "CredentialsSignin"
                     then "Invalid credentials." else "Something went wrong.")),
       logged s w [EvSignIn "credentials" fd])
  | (Throw e, w) => (Throw e, logged s w [EvSignIn "credentials" fd])
  end.
Proof.
  unfold authenticate. run_action.
  destruct (signIn env _ _ _) as [[[]|[type|i|o]] w]; try reflexivity.
  destruct (String.eqb type "CredentialsSignin"); reflexivity.
Qed.
End Authenticate.

(** C7.  For every sign-in attempt: when the verifier raises an [AuthError]
    of type [CredentialsSignin], [authenticate] returns
    "Invalid credentials."; when it raises an [AuthError] of any other
    type, "Something went wrong."; when it raises anything that is no
    [AuthError], that same error is thrown again; when it completes,
    nothing is returned. *)
Theorem authenticate_translates_auth_errors :
  forall (W : Type) (env : Env W) (prev : option string) (fd : FormData) (s : Sys W),
    (forall w,
        signIn env "credentials" fd (world s)
        = (Throw (AuthError "CredentialsSignin"), w) ->
        fst (authenticate env prev fd s) = Normal (Some "Invalid credentials."))
    /\ (forall type w,
          type <> "CredentialsSignin" ->
          signIn env "credentials" fd (world s) = (Throw (AuthError type), w) ->
          fst (authenticate env prev fd s) = Normal (Some "Something went wrong."))
    /\ (forall e w,
          (forall type, e <> AuthError type) ->
          signIn env "credentials" fd (world s) = (Throw e, w) ->
          fst (authenticate env prev fd s) = Throw e)
    /\ (forall w,
          signIn env "credentials" fd (world s) = (Normal tt, w) ->
          fst (authenticate env prev fd s) = Normal None).
Proof.
  intros W env prev fd s. rewrite (authenticate_cases env prev fd s).
  repeat split.
  - intros w ->. reflexivity.
  - intros type w Hne ->. cbn [fst].
    destruct (String.eqb_spec type "CredentialsSignin"); [contradiction|reflexivity].
  - intros e w Hne ->. destruct e as [type| |]; [|reflexivity..].
    now destruct (Hne type).
  - intros w ->. reflexivity.
Qed.

Lemma authenticate_translates_auth_errors_witness :
  fst (authenticate (Fixture.env None None (Some (AuthError "CredentialsSignin")))
         None [] Fixture.start)
  = Normal (Some "Invalid credentials.")
  /\ fst (authenticate (Fixture.env None None (Some (AuthError "CallbackRouteError")))
            None [] Fixture.start)
     = Normal (Some "Something went wrong.")
  /\ fst (authenticate (Fixture.env None None (Some (OtherError "NEXT_REDIRECT")))
            None [] Fixture.start)
     = Throw (OtherError "NEXT_REDIRECT")
  /\ fst (authenticate Fixture.ok_env None [] Fixture.start) = Normal None.
Proof.
  split; [|split; [|split]].
  - exact (proj1 (authenticate_translates_auth_errors Fixture.World
                    (Fixture.env None None (Some (AuthError "CredentialsSignin")))
                    None [] Fixture.start) _ eq_refl).
  - refine (proj1 (proj2 (authenticate_translates_auth_errors Fixture.World
                    (Fixture.env None None (Some (AuthError "CallbackRouteError")))
                    None [] Fixture.start)) _ _ _ eq_refl).
    discriminate.
  - refine (proj1 (proj2 (proj2 (authenticate_translates_auth_errors Fixture.World
                    (Fixture.env None None (Some (OtherError "NEXT_REDIRECT")))
                    None [] Fixture.start))) _ _ _ eq_refl).
    discriminate.
  - exact (proj2 (proj2 (proj2 (authenticate_translates_auth_errors Fixture.World
                    Fixture.ok_env None [] Fixture.start))) _ eq_refl).
Defined.

(** ** The rules of the three fields

In the statements below [opt_get formData k] is what the validator of
[k] is given: [Js.Undefined] when the action was called without form
data, [Js.Null] when the form has no entry [k], [Js.File] when the first
entry [k] is a file, and [Js.Str s] when it is the text [s]. *)

Lemma opt_get_cases (fd : option FormData) (k : string) :
  opt_get fd k = Js.Undefined /\ fd = None
  \/ (opt_get fd k = Js.Null /\ exists l, fd = Some l)
  \/ (opt_get fd k = Js.File /\ exists l, fd = Some l)
  \/ (exists s l, opt_get fd k = Js.Str s /\ fd = Some l).
Proof.
  destruct fd as [l|]; [|now left]. right. cbn [opt_get].
  induction l as [|[k' v] l IH]; cbn [FormData_get].
  - left. eauto.
  - destruct (String.eqb k' k).
    + destruct v; eauto 10.
    + destruct IH as [[? [? ?]]|[[? [? ?]]|(? & ? & ? & ?)]]; eauto 10.
Qed.

(** C8, as the code has it.  The [customerId] field is accepted exactly
    when it is a string, the empty string included.  Otherwise one message
    is attached to [customerId]: "Please select a customer." when the form
    has no such entry or has a file there, and "Required" when there is no
    form data at all. *)
Theorem customerId_rule :
  forall fd : option FormData,
    (field_fails "customerId" fd = false
     <-> exists s, opt_get fd "customerId" = Js.Str s)
    /\ field_errors "customerId" fd
       = match opt_get fd "customerId" with
         | Js.Str _ => None
         | Js.Undefined => Some ["Required"]
         | _ => Some ["Please select a customer."]
         end.
Proof.
  intros fd. rewrite (field_errors_spec "customerId" fd) by (cbn; auto).
  unfold field_fails, field_messages. rewrite parse_customerId.
  destruct (opt_get fd "customerId"); cbn; (split; [split|reflexivity]);
    solve [eauto | discriminate | intros [? ?]; discriminate].
Qed.

(** C8 fails as stated: the empty string is accepted as a customer, and the
    insert statement binds it. *)
Lemma empty_customerId_is_accepted :
  opt_get (Fixture.form "" "10" "paid") "customerId" = Js.Str ""
  /\ field_fails "customerId" (Fixture.form "" "10" "paid") = false
  /\ validateInvoiceForms (Fixture.form "" "10" "paid") = None
  /\ statements (trace (snd (createInvoice Fixture.ok_env None
                               (Fixture.form "" "10" "paid") Fixture.start)))
     = [INSERT_invoices (Js.Str "") (Js.Number (Num.of_Z 1000)) (Js.Str "paid")
          (Js.Str "2024-03-09")]
  /\ field_errors "customerId" None = Some ["Required"].
Proof. repeat split; vm_compute; reflexivity. Qed.

(** C3, as the code has it.  The text "pending" or "paid" passes, unchanged.
    Any other text gets the library's message for a value outside the
    enumeration; a form without [status] entry (or with a file there) gets
    "Please select an invoice status."; no form data at all gets
    "Required".  The message is attached to [status] in each case. *)
Theorem status_rule :
  forall fd : option FormData,
    field_errors "status" fd
    = match opt_get fd "status" with
      | Js.Str s =>
          if (String.eqb s "pending" || String.eqb s "paid")%bool then None
          else Some ["Invalid enum value. Expected 'pending' | 'paid', received '"
                     +:+ s +:+ "'"]
      | Js.Undefined => Some ["Required"]
      | _ => Some ["Please select an invoice status."]
      end
    /\ (forall s, opt_get fd "status" = Js.Str s ->
        s = "pending" \/ s = "paid" ->
        field_parse "status" fd = (Zod.OK (Js.Str s), []))
    /\ (forall d, Zod.safeParse CreateInvoice (fields fd) = Zod.success d ->
        Zod.get d "status" = opt_get fd "status"
        /\ (Zod.get d "status" = Js.Str "pending"
            \/ Zod.get d "status" = Js.Str "paid")).
Proof.
  intros fd. split; [|split].
  - rewrite (field_errors_spec "status" fd) by (cbn; auto).
    unfold field_fails, field_messages. rewrite parse_status.
    destruct (opt_get fd "status"); try reflexivity.
    destruct (_ || _)%bool; reflexivity.
  - intros s E Hs. rewrite parse_status, E.
    destruct Hs as [-> | ->]; reflexivity.
  - intros d H.
    destruct (safeParse_success_inv fd d H) as (c & st & _ & Hst & Hv & _ & ->).
    rewrite Hst. cbn. split; [reflexivity|]. destruct Hv as [-> | ->]; auto.
Qed.

(** C3 fails as stated: for the texts "overdue" and "" the message attached
    to [status] is the library's, not "Please select an invoice status.". *)
Lemma wrong_status_text_gets_the_enum_message :
  field_errors "status" (Fixture.form "c1" "10" "overdue")
  = Some ["Invalid enum value. Expected 'pending' | 'paid', received 'overdue'"]
  /\ field_errors "status" (Fixture.form "c1" "10" "")
     = Some ["Invalid enum value. Expected 'pending' | 'paid', received ''"]
  /\ field_errors "status" (Fixture.form "c1" "10" "overdue")
     <> Some ["Please select an invoice status."].
Proof. repeat split; vm_compute; [reflexivity..|discriminate]. Qed.

(** C4, as the code has it.  An amount that coerces to a number not
    strictly greater than 0 gets "Please enter an amount greater than $0.";
    one that does not coerce to a number gets the library's
    "Expected number, received nan"; one that coerces to a number strictly
    greater than 0 passes, as that number. *)
Theorem amount_rule :
  forall fd : option FormData,
    field_errors "amount" fd
    = (if Num.is_nan (Js.ToNumber (opt_get fd "amount"))
       then Some ["Expected number, received nan"]
       else if Num.leb (Js.ToNumber (opt_get fd "amount")) Num.zero
            then Some ["Please enter an amount greater than $0."]
            else None)
    /\ (Num.ltb Num.zero (Js.ToNumber (opt_get fd "amount")) = true
        <-> field_parse "amount" fd
            = (Zod.OK (Js.Number (Js.ToNumber (opt_get fd "amount"))), [])).
Proof.
  intros fd. split.
  - rewrite (field_errors_spec "amount" fd) by (cbn; auto).
    unfold field_fails, field_messages. rewrite parse_amount. cbv zeta.
    destruct (Num.is_nan _); [reflexivity|]. destruct (Num.leb _ _); reflexivity.
  - rewrite parse_amount. cbv zeta. split.
    + intros H. apply checks_of_positive in H as [-> ->]. reflexivity.
    + destruct (Num.is_nan _) eqn:Hn; [discriminate|].
      destruct (Num.leb _ _) eqn:Hl; [discriminate|].
      intros _. now apply positive_of_checks.
Qed.

(** C4 fails as stated: the amount "abc" coerces to no number, and the
    message attached to [amount] is "Expected number, received nan". *)
Lemma non_numeric_amount_gets_the_type_message :
  Js.ToNumber (opt_get (Fixture.form "c1" "abc" "paid") "amount") = Num.NaN
  /\ field_errors "amount" (Fixture.form "c1" "abc" "paid")
     = Some ["Expected number, received nan"]
  /\ field_errors "amount" (Fixture.form "c1" "abc" "paid")
     <> Some ["Please enter an amount greater than $0."].
Proof. repeat split; vm_compute; [reflexivity..|discriminate]. Qed.

(** The amounts "0" and "-5", and a form without [amount] entry, get the
    message of the schema. *)
Example non_positive_amounts :
  field_errors "amount" (Fixture.form "c1" "0" "paid")
  = Some ["Please enter an amount greater than $0."]
  /\ field_errors "amount" (Fixture.form "c1" "-5" "paid")
     = Some ["Please enter an amount greater than $0."]
  /\ field_errors "amount" (Some []) = Some ["Please enter an amount greater than $0."].
Proof. repeat split; vm_compute; reflexivity. Qed.

(** ** Further properties of the two forms *)



(** Whatever the form and the error, an insert that raises is answered by
    [createInvoice] with exactly "Something went wrong": nothing is thrown,
    and the call after the [try] block is not made. *)
Theorem createInvoice_contains_store_failures :
  forall (W : Type) (env : Env W) (prev : option State) (fd : option FormData)
         (s : Sys W) (d : Zod.obj) (e : JsError) (w : W),
    Zod.safeParse CreateInvoice (fields fd) = Zod.success d ->
    sql env (insert_of d (split_T_0 (Date_toISOString env (world s)))) (world s)
    = (Throw e, w) ->
    createInvoice env prev fd s
    = (Normal (Some {| errors := None; message := Some "Something went wrong" |}),
       {| world := w;
          trace := (trace s
                    ++ [EvSql (insert_of d (split_T_0 (Date_toISOString env (world s))))])%list |}).
Proof.
  intros W env prev fd s d e w H E.
  rewrite (createInvoice_valid env prev fd s d H).
  unfold after_statement. now rewrite E.
Qed.

Lemma createInvoice_contains_store_failures_witness :
  createInvoice (Fixture.env (Some (OtherError "connection refused")) None None)
    None (Fixture.form "c1" "10" "pending") Fixture.start
  = (Normal (Some {| errors := None; message := Some "Something went wrong" |}),
     {| world := ["x"; "y"];
        trace := (trace Fixture.start
                  ++ [EvSql (insert_of [("customerId", Js.Str "c1");
                                        ("amount", Js.Number (Num.of_Z 10));
                                        ("status", Js.Str "pending")]
                               "2024-03-09")])%list |}).
Proof.
  exact (createInvoice_contains_store_failures Fixture.World
           (Fixture.env (Some (OtherError "connection refused")) None None)
           None (Fixture.form "c1" "10" "pending") Fixture.start
           [("customerId", Js.Str "c1"); ("amount", Js.Number (Num.of_Z 10));
            ("status", Js.Str "pending")]
           (OtherError "connection refused") ["x"; "y"] eq_refl eq_refl).
Defined.

(** A create that succeeds: the form [c1], [10], [pending] persists the
    amount 1000 with the status and the date of the day, then calls
    [revalidateRedirectPath] on the listing, and returns nothing. *)
Example createInvoice_success :
  createInvoice Fixture.ok_env None (Fixture.form "c1" "10" "pending") Fixture.start
  = (Normal None,
     {| world := ["x"; "y"; "new"];
        trace := [EvSql (INSERT_invoices (Js.Str "c1") (Js.Number (Num.of_Z 1000))
                           (Js.Str "pending") (Js.Str "2024-03-09"));
                  EvRevalidateRedirectPath "/dashboard/invoices"] |}).
Proof. vm_compute. reflexivity. Qed.

(** * The rest of what the actions do *)

(** ** The two forms, in full *)

(** The statement of a form that passes validation, from its entries. *)
Lemma statement_of_valid_form fd d :
  Zod.safeParse CreateInvoice (fields fd) = Zod.success d ->
  (forall date, insert_of d date = insert_for fd date)
  /\ (forall id, update_of d id = update_for fd id).
Proof.
  intros H.
  destruct (safeParse_success_inv fd d H) as (c & st & Hc & Hst & _ & _ & ->).
  unfold insert_of, update_of, insert_for, update_for, amount_in_cents.
  rewrite Hc, Hst. split; reflexivity.
Qed.

Section Runs.
Context {W : Type} (env : Env W).

(** [createInvoice], whatever the form. *)
Lemma createInvoice_run prev fd (s : Sys W) :
  createInvoice env prev fd s
  = match validateInvoiceForms fd with
    | Some v => (Normal (Some v), s)
    | None =>
        after_statement env "Something went wrong" s (insert_for fd (today env s))
    end.
Proof.
  destruct (validateInvoiceForms fd) as [v|] eqn:V.
  - now apply createInvoice_invalid.
  - destruct (validate_None_inv fd V) as [d Hd].
    rewrite (createInvoice_valid env prev fd s d Hd).
    now rewrite (proj1 (statement_of_valid_form fd d Hd)).
Qed.

(** [updateInvoice], whatever the form. *)
Lemma updateInvoice_run id prev fd (s : Sys W) :
  updateInvoice env id prev fd s
  = match validateInvoiceForms fd with
    | Some v => (Normal (Some v), s)
    | None => after_statement env "Somethign went wrong" s (update_for fd id)
    end.
Proof.
  destruct (validateInvoiceForms fd) as [v|] eqn:V.
  - now apply updateInvoice_invalid.
  - destruct (validate_None_inv fd V) as [d Hd].
    rewrite (updateInvoice_valid env id prev fd s d Hd).
    now rewrite (proj2 (statement_of_valid_form fd d Hd)).
Qed.

(** The calls made from the statement on: the statement, then, if it
    completed, the invalidation. *)
Lemma after_statement_trace caught (s : Sys W) q :
  trace (snd (after_statement env caught s q))
  = (trace s
     ++ match sql env q (world s) with
        | (Normal _, _) => [EvSql q; EvRevalidateRedirectPath listing]
        | (Throw _, _) => [EvSql q]
        end)%list.
Proof.
  unfold after_statement.
  destruct (sql env q (world s)) as [[[]|e] w]; [|reflexivity].
  destruct (revalidateRedirectPath env listing w) as [[[]|e] w']; reflexivity.
Qed.

(** What is thrown from the statement on is what the invalidation threw
    after a statement that completed. *)
Lemma after_statement_throws caught (s : Sys W) q e :
  fst (after_statement env caught s q) = Throw e
  <-> exists w w', sql env q (world s) = (Normal tt, w)
                   /\ revalidateRedirectPath env listing w = (Throw e, w').
Proof.
  unfold after_statement. split.
  - destruct (sql env q (world s)) as [[[]|e0] w]; [|discriminate].
    destruct (revalidateRedirectPath env listing w) as [[[]|e1] w'] eqn:E;
      [discriminate|].
    cbn. intros [= ->]. eauto.
  - intros (w & w' & -> & ->). reflexivity.
Qed.

End Runs.

(** ** When a form is accepted *)

Lemma form_accepted_iff (fd : option FormData) :
  validateInvoiceForms fd = None
  <-> (exists c, opt_get fd "customerId" = Js.Str c)
      /\ Num.ltb Num.zero (Js.ToNumber (opt_get fd "amount")) = true
      /\ (opt_get fd "status" = Js.Str "pending"
          \/ opt_get fd "status" = Js.Str "paid").
Proof.
  split.
  - intros V. destruct (validate_None_inv fd V) as [d Hd].
    destruct (safeParse_success_inv fd d Hd) as (c & st & Hc & Hst & Hv & Hp & _).
    split; [eauto|]. split; [assumption|].
    rewrite Hst. destruct Hv as [-> | ->]; auto.
  - intros ([c Hc] & Hp & Hst).
    apply checks_of_positive in Hp as [Hn Hl].
    assert (field_fails "customerId" fd = false) as Fc.
    { unfold field_fails. rewrite parse_customerId, Hc. reflexivity. }
    assert (field_fails "amount" fd = false) as Fa.
    { unfold field_fails. rewrite parse_amount. cbv zeta. now rewrite Hn, Hl. }
    assert (field_fails "status" fd = false) as Fs.
    { unfold field_fails. rewrite parse_status.
      destruct Hst as [-> | ->]; reflexivity. }
    destruct (validate_pass fd Fc Fa Fs) as (? & ? & ? & _ & _ & _ & E).
    rewrite validate_eq, E. reflexivity.
Qed.

Lemma form_accepted (fd : option FormData) :
  (exists c, opt_get fd "customerId" = Js.Str c)
  /\ Num.ltb Num.zero (Js.ToNumber (opt_get fd "amount")) = true
  /\ (opt_get fd "status" = Js.Str "pending"
      \/ opt_get fd "status" = Js.Str "paid") ->
  validateInvoiceForms fd = None.
Proof. apply form_accepted_iff. Qed.

(** The form passes validation exactly when its customer is a string, its
    amount coerces to a number strictly greater than 0, and its status is
    the text "pending" or "paid". *)
Theorem form_is_accepted_iff :
  forall fd : option FormData,
    validateInvoiceForms fd = None
    <-> (exists c, opt_get fd "customerId" = Js.Str c)
        /\ Num.ltb Num.zero (Js.ToNumber (opt_get fd "amount")) = true
        /\ (opt_get fd "status" = Js.Str "pending"
            \/ opt_get fd "status" = Js.Str "paid").
Proof. exact form_accepted_iff. Qed.

(** ** The course of a submission *)

(** A form that passes validation, a statement that completes and an
    invalidation that completes: [createInvoice] and [updateInvoice] return
    nothing, having called the statement and then [revalidateRedirectPath]
    on the listing, in the world the statement left. *)
Theorem accepted_submission_returns_nothing :
  forall (W : Type) (env : Env W) (id : option string) (prev : option State)
         (fd : option FormData) (s : Sys W),
    validateInvoiceForms fd = None ->
    (forall w w',
        sql env (insert_for fd (today env s)) (world s) = (Normal tt, w) ->
        revalidateRedirectPath env "/dashboard/invoices" w = (Normal tt, w') ->
        createInvoice env prev fd s
        = (Normal None,
           {| world := w';
              trace := (trace s
                        ++ [EvSql (insert_for fd (today env s));
                            EvRevalidateRedirectPath "/dashboard/invoices"])%list |}))
    /\ (forall w w',
          sql env (update_for fd id) (world s) = (Normal tt, w) ->
          revalidateRedirectPath env "/dashboard/invoices" w = (Normal tt, w') ->
          updateInvoice env id prev fd s
          = (Normal None,
             {| world := w';
                trace := (trace s
                          ++ [EvSql (update_for fd id);
                              EvRevalidateRedirectPath "/dashboard/invoices"])%list |})).
Proof.
  intros W env id prev fd s V.
  rewrite createInvoice_run, updateInvoice_run, V. unfold after_statement, listing.
  split; intros w w' -> ->; reflexivity.
Qed.

Lemma accepted_submission_returns_nothing_witness :
  validateInvoiceForms (Fixture.form "c1" "10" "pending") = None
  /\ createInvoice Fixture.ok_env None (Fixture.form "c1" "10" "pending") Fixture.start
     = (Normal None,
        {| world := ["x"; "y"; "new"];
           trace := (trace Fixture.start
                     ++ [EvSql (insert_for (Fixture.form "c1" "10" "pending")
                                  (today Fixture.ok_env Fixture.start));
                         EvRevalidateRedirectPath "/dashboard/invoices"])%list |})
  /\ updateInvoice Fixture.ok_env (Some "x") None (Fixture.form "c1" "10" "pending")
       Fixture.start
     = (Normal None,
        {| world := ["x"; "y"];
           trace := (trace Fixture.start
                     ++ [EvSql (update_for (Fixture.form "c1" "10" "pending") (Some "x"));
                         EvRevalidateRedirectPath "/dashboard/invoices"])%list |}).
Proof.
  split; [reflexivity|].
  pose proof (accepted_submission_returns_nothing Fixture.World Fixture.ok_env
                (Some "x") None (Fixture.form "c1" "10" "pending") Fixture.start
                eq_refl) as [Hc Hu].
  split.
  - exact (Hc ["x"; "y"; "new"] ["x"; "y"; "new"] eq_refl eq_refl).
  - exact (Hu ["x"; "y"] ["x"; "y"] eq_refl eq_refl).
Defined.

(** [createInvoice] and [updateInvoice] throw in one case only: the form
    passed validation, the statement completed, and
    [revalidateRedirectPath], which is called outside the [try] block,
    threw; what they throw is what it threw. *)
Theorem submission_throws_only_what_the_redirect_throws :
  forall (W : Type) (env : Env W) (id : option string) (prev : option State)
         (fd : option FormData) (s : Sys W) (e : JsError),
    (fst (createInvoice env prev fd s) = Throw e
     <-> validateInvoiceForms fd = None
         /\ exists w w',
             sql env (insert_for fd (today env s)) (world s) = (Normal tt, w)
             /\ revalidateRedirectPath env "/dashboard/invoices" w = (Throw e, w'))
    /\ (fst (updateInvoice env id prev fd s) = Throw e
        <-> validateInvoiceForms fd = None
            /\ exists w w',
                sql env (update_for fd id) (world s) = (Normal tt, w)
                /\ revalidateRedirectPath env "/dashboard/invoices" w = (Throw e, w')).
Proof.
  intros W env id prev fd s e.
  rewrite createInvoice_run, updateInvoice_run.
  destruct (validateInvoiceForms fd) as [v|].
  - split; (split; [discriminate|intros [? _]; discriminate]).
  - rewrite !after_statement_throws. unfold listing. intuition.
Qed.

Lemma submission_throws_only_what_the_redirect_throws_witness :
  fst (createInvoice (Fixture.env None (Some (OtherError "NEXT_REDIRECT")) None)
         None (Fixture.form "c1" "10" "pending") Fixture.start)
  = Throw (OtherError "NEXT_REDIRECT").
Proof.
  apply (proj1 (submission_throws_only_what_the_redirect_throws Fixture.World
                  (Fixture.env None (Some (OtherError "NEXT_REDIRECT")) None)
                  None None (Fixture.form "c1" "10" "pending") Fixture.start
                  (OtherError "NEXT_REDIRECT"))).
  split; [reflexivity|].
  exists ["x"; "y"; "new"], ["x"; "y"; "new"]. split; reflexivity.
Defined.

(** The calls of a submission, in order: none when validation fails;
    otherwise the one statement, followed by [revalidateRedirectPath] on
    the listing exactly when the statement completed.  So the navigation
    is never signalled after a failure, and no action calls the other's
    statement. *)
Theorem submission_calls :
  forall (W : Type) (env : Env W) (id : option string) (prev : option State)
         (fd : option FormData) (s : Sys W),
    trace (snd (createInvoice env prev fd s))
    = (trace s
       ++ match validateInvoiceForms fd with
          | Some _ => []
          | None =>
              match sql env (insert_for fd (today env s)) (world s) with
              | (Normal _, _) =>
                  [EvSql (insert_for fd (today env s));
                   EvRevalidateRedirectPath "/dashboard/invoices"]
              | (Throw _, _) => [EvSql (insert_for fd (today env s))]
              end
          end)%list
    /\ trace (snd (updateInvoice env id prev fd s))
       = (trace s
          ++ match validateInvoiceForms fd with
             | Some _ => []
             | None =>
                 match sql env (update_for fd id) (world s) with
                 | (Normal _, _) =>
                     [EvSql (update_for fd id);
                      EvRevalidateRedirectPath "/dashboard/invoices"]
                 | (Throw _, _) => [EvSql (update_for fd id)]
                 end
             end)%list.
Proof.
  intros W env id prev fd s. rewrite createInvoice_run, updateInvoice_run.
  destruct (validateInvoiceForms fd) as [v|].
  - cbn [snd]. now rewrite app_nil_r.
  - now rewrite !after_statement_trace.
Qed.



(** ** Forms with missing, extra and repeated entries *)

Lemma FormData_get_absent (l : FormData) k :
  has_entry l k = false -> FormData_get l k = Js.Null.
Proof.
  induction l as [|[k' v] l IH]; cbn; [reflexivity|].
  destruct (String.eqb k' k); [discriminate|exact IH].
Qed.

(** What [validateInvoiceForms] returns when a field fails. *)
Lemma validate_failing fd k :
  In k field_names -> field_fails k fd = true ->
  exists errs,
    validateInvoiceForms fd
    = Some {| errors := Some errs; message := Some missing_fields |}
    /\ errs !! k = Some (field_messages k fd).
Proof.
  intros Hk Hf.
  assert ((field_fails "customerId" fd || field_fails "amount" fd
           || field_fails "status" fd)%bool = true) as E.
  { destruct Hk as [<-|[<-|[<-|[]]]]; rewrite Hf; now rewrite ?orb_true_r. }
  eexists. rewrite validate_eq, (safeParse_fail fd E). split; [reflexivity|].
  now rewrite (flatten_fields fd k Hk), Hf.
Qed.

(** A form that lacks the entry of a field is rejected, with nothing done:
    both actions return the "Missing Fields" result, in which the field
    carries "Please select a customer." for [customerId],
    "Please enter an amount greater than $0." for [amount] (a missing
    amount coerces to 0) and "Please select an invoice status." for
    [status]. *)
Theorem absent_entry_is_reported :
  forall (W : Type) (env : Env W) (id : option string) (prev : option State)
         (l : FormData) (s : Sys W) (k : string),
    In k field_names ->
    has_entry l k = false ->
    exists errs : gmap string (list string),
      createInvoice env prev (Some l) s
      = (Normal (Some {| errors := Some errs;
                         message := Some "Missing Fields. Failed to Create Invoice." |}), s)
      /\ updateInvoice env id prev (Some l) s
         = (Normal (Some {| errors := Some errs;
                            message := Some "Missing Fields. Failed to Create Invoice." |}), s)
      /\ errs !! k
         = Some [if String.eqb k "customerId" then "Please select a customer."
                 else if String.eqb k "amount"
                      then "Please enter an amount greater than $0."
                      else "Please select an invoice status."].
Proof.
  intros W env id prev l s k Hk Ha.
  assert (opt_get (Some l) k = Js.Null) as G by now apply FormData_get_absent.
  assert (field_fails k (Some l) = true
          /\ field_messages k (Some l)
             = [if String.eqb k "customerId" then "Please select a customer."
                else if String.eqb k "amount"
                     then "Please enter an amount greater than $0."
                     else "Please select an invoice status."]) as [Hf Hm].
  { unfold field_fails, field_messages.
    destruct Hk as [<-|[<-|[<-|[]]]].
    - rewrite parse_customerId, G. split; reflexivity.
    - rewrite parse_amount, G. split; reflexivity.
    - rewrite parse_status, G. split; reflexivity. }
  destruct (validate_failing (Some l) k Hk Hf) as (errs & V & E).
  exists errs. rewrite createInvoice_run, updateInvoice_run, V.
  repeat split. now rewrite E, Hm.
Qed.

Lemma absent_entry_is_reported_witness :
  In "status" field_names
  /\ has_entry [("customerId", EntryString "c1"); ("amount", EntryString "10")]
       "status" = false
  /\ exists errs : gmap string (list string),
      createInvoice Fixture.ok_env None
        (Some [("customerId", EntryString "c1"); ("amount", EntryString "10")])
        Fixture.start
      = (Normal (Some {| errors := Some errs;
                         message := Some "Missing Fields. Failed to Create Invoice." |}),
         Fixture.start)
      /\ updateInvoice Fixture.ok_env (Some "x") None
           (Some [("customerId", EntryString "c1"); ("amount", EntryString "10")])
           Fixture.start
         = (Normal (Some {| errors := Some errs;
                            message := Some "Missing Fields. Failed to Create Invoice." |}),
            Fixture.start)
      /\ errs !! "status"
         = Some [if String.eqb "status" "customerId" then "Please select a customer."
                 else if String.eqb "status" "amount"
                      then "Please enter an amount greater than $0."
                      else "Please select an invoice status."].
Proof.
  split; [cbn; auto|]. split; [reflexivity|].
  apply (absent_entry_is_reported Fixture.World Fixture.ok_env (Some "x") None
           [("customerId", EntryString "c1"); ("amount", EntryString "10")]
           Fixture.start "status").
  - cbn; auto.
  - reflexivity.
Defined.

(** An entry is read only if it is the first of its name. *)
Lemma FormData_get_skip (l1 l2 : FormData) k v n :
  (String.eqb k n = false \/ has_entry l1 k = true) ->
  FormData_get (l1 ++ (k, v) :: l2)%list n = FormData_get (l1 ++ l2)%list n.
Proof.
  induction l1 as [|[k' v'] l1 IH]; cbn [app FormData_get has_entry existsb fst].
  - intros [-> | ?]; [reflexivity|discriminate].
  - destruct (String.eqb k' n) eqn:E1; [reflexivity|].
    intros [Hn|Hk]; [now apply IH; left|].
    apply orb_true_iff in Hk as [Hk|Hk]; [|now apply IH; right].
    apply String.eqb_eq in Hk as ->. apply IH. now left.
Qed.

(** The actions read the first [customerId], [amount] and [status] entry of
    the form and nothing else: an entry of another name (an [id], a [date]),
    or one that follows an entry of its own name, changes nothing to what
    [createInvoice] and [updateInvoice] do. *)
Theorem unread_entries_change_nothing :
  forall (W : Type) (env : Env W) (id : option string) (prev : option State)
         (l1 l2 : FormData) (k : string) (v : FormDataEntryValue) (s : Sys W),
    (~ In k field_names \/ has_entry l1 k = true) ->
    createInvoice env prev (Some (l1 ++ (k, v) :: l2)%list) s
    = createInvoice env prev (Some (l1 ++ l2)%list) s
    /\ updateInvoice env id prev (Some (l1 ++ (k, v) :: l2)%list) s
       = updateInvoice env id prev (Some (l1 ++ l2)%list) s.
Proof.
  intros W env id prev l1 l2 k v s H.
  assert (forall n, In n field_names ->
                    opt_get (Some (l1 ++ (k, v) :: l2)%list) n = opt_get (Some (l1 ++ l2)%list) n)
    as G.
  { intros n Hn. cbn [opt_get]. apply FormData_get_skip.
    destruct H as [H|H]; [left|now right].
    apply String.eqb_neq. now intros ->. }
  assert (fields (Some (l1 ++ (k, v) :: l2)%list) = fields (Some (l1 ++ l2)%list)) as F.
  { unfold fields. rewrite !G by (cbn; auto). reflexivity. }
  unfold createInvoice, updateInvoice, validateInvoiceForms.
  now rewrite F.
Qed.

Lemma unread_entries_change_nothing_witness :
  createInvoice Fixture.ok_env None
    (Some ([("customerId", EntryString "c1"); ("amount", EntryString "10");
            ("status", EntryString "paid")]
           ++ ("amount", EntryString "-1") :: [("id", EntryString "7")])%list)
    Fixture.start
  = createInvoice Fixture.ok_env None
      (Some ([("customerId", EntryString "c1"); ("amount", EntryString "10");
              ("status", EntryString "paid")]
             ++ [("id", EntryString "7")])%list)
      Fixture.start
  /\ updateInvoice Fixture.ok_env (Some "x") None
       (Some ([("customerId", EntryString "c1"); ("amount", EntryString "10");
               ("status", EntryString "paid")]
              ++ ("amount", EntryString "-1") :: [("id", EntryString "7")])%list)
       Fixture.start
     = updateInvoice Fixture.ok_env (Some "x") None
         (Some ([("customerId", EntryString "c1"); ("amount", EntryString "10");
                 ("status", EntryString "paid")]
                ++ [("id", EntryString "7")])%list)
         Fixture.start.
Proof.
  apply (unread_entries_change_nothing Fixture.World Fixture.ok_env (Some "x") None
           [("customerId", EntryString "c1"); ("amount", EntryString "10");
            ("status", EntryString "paid")]
           [("id", EntryString "7")] "amount" (EntryString "-1") Fixture.start).
  right. reflexivity.
Defined.

(** ** The errors of a rejected form *)

(** The fields are judged independently: the messages attached to a field
    depend on the value of that field only, whatever the other fields
    are. *)
Theorem field_errors_depend_on_the_field_only :
  forall (fd fd' : option FormData) (k : string),
    In k field_names ->
    opt_get fd k = opt_get fd' k ->
    field_errors k fd = field_errors k fd'.
Proof.
  intros fd fd' k Hk E.
  rewrite !field_errors_spec by assumption.
  unfold field_fails, field_messages, field_parse. now rewrite E.
Qed.

Lemma field_errors_depend_on_the_field_only_witness :
  In "amount" field_names
  /\ opt_get (Fixture.form "c1" "0" "paid") "amount"
     = opt_get (Fixture.form "" "0" "bad") "amount"
  /\ field_errors "amount" (Fixture.form "c1" "0" "paid")
     = field_errors "amount" (Fixture.form "" "0" "bad").
Proof.
  split; [cbn; auto|]. split; [reflexivity|].
  apply (field_errors_depend_on_the_field_only (Fixture.form "c1" "0" "paid")
           (Fixture.form "" "0" "bad") "amount").
  - cbn; auto.
  - reflexivity.
Defined.

(** [flatten] files nothing under another name than those of the fields. *)
Lemma flatten_fields_other fd k :
  ~ In k field_names ->
  Zod.fieldErrors
    (Zod.flatten (snd (field_parse "customerId" fd) ++ snd (field_parse "amount" fd)
                    ++ snd (field_parse "status" fd))%list) !! k
  = None.
Proof.
  intros Hk.
  assert (k <> "customerId" /\ k <> "amount" /\ k <> "status") as (N1 & N2 & N3).
  { cbn in Hk. intuition. }
  destruct (field_parse_cases "customerId" fd ltac:(cbn; auto))
    as [[? ->]|(? & ? & ? & -> & Hc)];
  destruct (field_parse_cases "amount" fd ltac:(cbn; auto))
    as [[? ->]|(? & ? & ? & -> & Ha)];
  destruct (field_parse_cases "status" fd ltac:(cbn; auto))
    as [[? ->]|(? & ? & ? & -> & Hs)];
  cbn [fst snd app Zod.flatten fold_left Zod.flatten_step Zod.path issue
       Zod.formErrors Zod.fieldErrors Zod.message];
  simplify_map_eq; reflexivity.
Qed.

(** The result of a failed validation: its message is the "Missing Fields"
    one, its [errors] are present, have at least one entry, have entries
    under the names of the three fields only, and give each field they name
    exactly one message. *)
Theorem rejected_form_result_shape :
  forall (fd : option FormData) (v : State),
    validateInvoiceForms fd = Some v ->
    exists errs : gmap string (list string),
      v = {| errors := Some errs;
             message := Some "Missing Fields. Failed to Create Invoice." |}
      /\ (exists k, In k field_names /\ is_Some (errs !! k))
      /\ (forall k ms, errs !! k = Some ms ->
          In k field_names /\ exists m, ms = [m]).
Proof.
  intros fd v V. rewrite validate_eq in V.
  destruct (field_fails "customerId" fd || field_fails "amount" fd
            || field_fails "status" fd)%bool eqn:E.
  - rewrite (safeParse_fail fd E) in V. injection V as <-.
    eexists. split; [reflexivity|]. split.
    + assert (exists k, In k field_names /\ field_fails k fd = true) as (k & Hk & Hf).
      { apply orb_true_iff in E as [E|E]; [apply orb_true_iff in E as [E|E]|];
          eexists; (split; [|exact E]); cbn; auto. }
      exists k. split; [assumption|]. rewrite (flatten_fields fd k Hk), Hf. eauto.
    + intros k ms Hl.
      destruct (in_dec String.string_dec k field_names) as [Hk|Hk].
      * split; [assumption|]. rewrite (flatten_fields fd k Hk) in Hl.
        destruct (field_fails k fd) eqn:Hf; [|discriminate].
        destruct (failing_field_has_message k fd Hk Hf) as [m Hm].
        exists m. congruence.
      * rewrite (flatten_fields_other fd k Hk) in Hl. discriminate.
  - apply orb_false_elim in E as [E Es]. apply orb_false_elim in E as [Ec Ea].
    destruct (validate_pass fd Ec Ea Es) as (? & ? & ? & _ & _ & _ & H).
    rewrite H in V. discriminate.
Qed.

Lemma rejected_form_result_shape_witness :
  validateInvoiceForms (Some [])
  = Some {| errors :=
              Some (<["status" := ["Please select an invoice status."]]>
                      (<["amount" := ["Please enter an amount greater than $0."]]>
                         (<["customerId" := ["Please select a customer."]]> ∅)));
            message := Some "Missing Fields. Failed to Create Invoice." |}
  /\ exists errs : gmap string (list string),
      {| errors :=
           Some (<["status" := ["Please select an invoice status."]]>
                   (<["amount" := ["Please enter an amount greater than $0."]]>
                      (<["customerId" := ["Please select a customer."]]> ∅)));
         message := Some "Missing Fields. Failed to Create Invoice." |}
      = {| errors := Some errs;
           message := Some "Missing Fields. Failed to Create Invoice." |}
      /\ (exists k, In k field_names /\ is_Some (errs !! k))
      /\ (forall k ms, errs !! k = Some ms ->
          In k field_names /\ exists m, ms = [m]).
Proof.
  split; [reflexivity|].
  apply (rejected_form_result_shape (Some [])). reflexivity.
Defined.

(** ** [authenticate], beyond its messages *)

(** [authenticate] calls the verifier once, with the strategy
    "credentials" and the form it was given, and calls nothing else; it
    never throws an [AuthError]: what it throws is what the verifier threw
    and is no [AuthError]; and a message it returns is one of its two
    texts. *)
Theorem authenticate_contains_auth_errors :
  forall (W : Type) (env : Env W) (prev : option string) (fd : FormData) (s : Sys W),
    snd (authenticate env prev fd s)
    = {| world := snd (signIn env "credentials" fd (world s));
         trace := (trace s ++ [EvSignIn "credentials" fd])%list |}
    /\ (forall e, fst (authenticate env prev fd s) = Throw e ->
        fst (signIn env "credentials" fd (world s)) = Throw e
        /\ forall type, e <> AuthError type)
    /\ (forall m, fst (authenticate env prev fd s) = Normal (Some m) ->
        m = "Invalid credentials." \/ m = "Something went wrong.").
Proof.
  intros W env prev fd s. rewrite (authenticate_cases env prev fd s).
  destruct (signIn env "credentials" fd (world s)) as [[[]|[type|i|o]] w];
    cbn [fst snd]; (split; [reflexivity|]); split;
    try discriminate; try (intros e [= <-]; split; [reflexivity|discriminate]).
  intros m [= <-]. destruct (String.eqb type "CredentialsSignin"); auto.
Qed.

(** ** The date of an insert *)

Lemma split_T_0_app (d t : string) :
  has_T d = false -> split_T_0 (d +:+ String "T" t) = d.
Proof.
  induction d as [|c d IH]; simpl.
  - reflexivity.
  - destruct (Ascii.eqb c "T"); [discriminate|]. simpl. intros H. f_equal. auto.
Qed.

Lemma split_T_0_no_T (s : string) : has_T (split_T_0 s) = false.
Proof.
  induction s as [|c s IH]; cbn; [reflexivity|].
  destruct (Ascii.eqb c "T") eqn:E; [reflexivity|]. cbn. now rewrite E.
Qed.

Lemma split_T_0_prefix (s : string) : String.prefix (split_T_0 s) s = true.
Proof.
  induction s as [|c s IH]; cbn; [reflexivity|].
  destruct (Ascii.eqb c "T"); [reflexivity|]. cbn.
  destruct (ascii_dec c c); [exact IH|contradiction].
Qed.

(** The date [createInvoice] binds is the calendar date of the server clock
    as it reads when the action starts: the text of [toISOString] before
    its [T].  It is a prefix of that text, it has no [T], and nothing of
    the form enters it. *)
Theorem insert_date_is_the_clock_date :
  forall (W : Type) (env : Env W) (prev : option State) (fd : option FormData)
         (s : Sys W),
    validateInvoiceForms fd = None ->
    exists (customer amount status : Js.value) (date : string),
      statements (trace (snd (createInvoice env prev fd s)))
      = (statements (trace s)
         ++ [INSERT_invoices customer amount status (Js.Str date)])%list
      /\ String.prefix date (Date_toISOString env (world s)) = true
      /\ has_T date = false
      /\ (forall d t, has_T d = false ->
          Date_toISOString env (world s) = d +:+ String "T" t -> date = d).
Proof.
  intros W env prev fd s V.
  exists (opt_get fd "customerId"), (amount_in_cents fd), (opt_get fd "status"),
    (today env s).
  rewrite createInvoice_run, V, after_statement_statements. unfold today.
  split; [reflexivity|]. split; [apply split_T_0_prefix|].
  split; [apply split_T_0_no_T|].
  intros d t Hd ->. now apply split_T_0_app.
Qed.

Lemma insert_date_is_the_clock_date_witness :
  validateInvoiceForms (Fixture.form "c1" "10" "pending") = None
  /\ Date_toISOString Fixture.ok_env (world Fixture.start)
     = "2024-03-09" +:+ String "T" "10:30:00.000Z"
  /\ exists (customer amount status : Js.value) (date : string),
      statements (trace (snd (createInvoice Fixture.ok_env None
                                (Fixture.form "c1" "10" "pending") Fixture.start)))
      = (statements (trace Fixture.start)
         ++ [INSERT_invoices customer amount status (Js.Str date)])%list
      /\ String.prefix date (Date_toISOString Fixture.ok_env (world Fixture.start))
         = true
      /\ has_T date = false
      /\ (forall d t, has_T d = false ->
          Date_toISOString Fixture.ok_env (world Fixture.start)
          = d +:+ String "T" t -> date = d).
Proof.
  split; [reflexivity|]. split; [reflexivity|].
  apply (insert_date_is_the_clock_date Fixture.World Fixture.ok_env None
           (Fixture.form "c1" "10" "pending") Fixture.start).
  reflexivity.
Defined.

(** ** The amount, at its bounds *)

Lemma shr_1_nonneg (mrs : shr_record) : 0 <= shr_m mrs -> 0 <= shr_m (shr_1 mrs).
Proof.
  destruct mrs as [m r s]. destruct m as [|p|p]; cbn; [lia| |lia].
  destruct p; cbn; lia.
Qed.

Lemma iter_pos_keeps {A} (P : A -> Prop) (f : A -> A) :
  (forall x, P x -> P (f x)) -> forall n x, P x -> P (SpecFloat.iter_pos f n x).
Proof.
  intros Hf n. induction n as [n IH|n IH|]; cbn; auto.
Qed.

Lemma shr_fexp_nonneg (m e : Z) (l : location) :
  0 <= m -> 0 <= shr_m (fst (shr_fexp Num.prec Num.emax m e l)).
Proof.
  intros Hm. unfold shr_fexp, shr.
  assert (0 <= shr_m (shr_record_of_loc m l)) as H0
    by (destruct l as [|[]]; exact Hm).
  destruct (_ - e) as [|p|p]; cbn [fst]; try exact H0.
  apply (iter_pos_keeps (fun r => 0 <= shr_m r)); [apply shr_1_nonneg|exact H0].
Qed.

Lemma round_nearest_even_nonneg (m : Z) (l : location) :
  0 <= m -> 0 <= round_nearest_even m l.
Proof.
  intros Hm. destruct l as [|[]]; cbn; try lia. destruct (Z.even m); lia.
Qed.

(** Rounding a non-negative mantissa under the sign [+] gives [+0], a
    positive number or [+Infinity]. *)
Lemma binary_round_aux_non_negative (m e : Z) (l : location) :
  0 <= m -> non_negative (binary_round_aux Num.prec Num.emax false m e l) = true.
Proof.
  intros Hm. unfold binary_round_aux.
  pose proof (shr_fexp_nonneg m e l Hm) as H1.
  destruct (shr_fexp Num.prec Num.emax m e l) as [mrs' e'].
  cbn [fst] in H1.
  pose proof (shr_fexp_nonneg _ e' loc_Exact
                (round_nearest_even_nonneg (shr_m mrs') (loc_of_shr_record mrs') H1))
    as H2.
  destruct (shr_fexp Num.prec Num.emax _ e' loc_Exact) as [mrs'' e''].
  cbn [fst] in H2.
  destruct (shr_m mrs'') as [|p|p]; [reflexivity| |lia].
  destruct (e'' <=? _); reflexivity.
Qed.

Lemma hundred_value : Num.of_Z 100 = S754_finite false 7036874417766400 (-46).
Proof. reflexivity. Qed.

Lemma times_hundred_non_negative (x : Num.number) :
  Num.ltb Num.zero x = true -> non_negative (Num.mul x (Num.of_Z 100)) = true.
Proof.
  rewrite hundred_value. destruct x as [[]|[]| |[] m e]; try discriminate.
  - reflexivity.
  - intros _. unfold Num.mul, SFmul. cbn [xorb].
    apply binary_round_aux_non_negative. lia.
Qed.

(** The amount a statement binds is never [NaN] and never negative: for
    every form that passes validation, the one statement of
    [createInvoice] and of [updateInvoice] binds a number that is [+0], a
    positive number or [+Infinity]. *)
Theorem persisted_amount_is_never_NaN_nor_negative :
  forall (W : Type) (env : Env W) (id : option string) (prev : option State)
         (fd : option FormData) (s : Sys W),
    validateInvoiceForms fd = None ->
    exists x : Num.number,
      non_negative x = true
      /\ statements (trace (snd (createInvoice env prev fd s)))
         = (statements (trace s)
            ++ [INSERT_invoices (opt_get fd "customerId") (Js.Number x)
                  (opt_get fd "status") (Js.Str (today env s))])%list
      /\ statements (trace (snd (updateInvoice env id prev fd s)))
         = (statements (trace s)
            ++ [UPDATE_invoices (opt_get fd "customerId") (Js.Number x)
                  (opt_get fd "status") (opt_str id)])%list.
Proof.
  intros W env id prev fd s V.
  exists (Num.mul (Js.ToNumber (opt_get fd "amount")) (Num.of_Z 100)).
  split.
  - destruct (validate_None_inv fd V) as [d Hd].
    destruct (safeParse_success_inv fd d Hd) as (_ & _ & _ & _ & _ & Hp & _).
    now apply times_hundred_non_negative.
  - rewrite createInvoice_run, updateInvoice_run, V.
    rewrite !after_statement_statements. split; reflexivity.
Qed.

Lemma persisted_amount_is_never_NaN_nor_negative_witness :
  validateInvoiceForms (Fixture.form "c1" "0.005" "paid") = None
  /\ exists x : Num.number,
      non_negative x = true
      /\ statements (trace (snd (createInvoice Fixture.ok_env None
                                   (Fixture.form "c1" "0.005" "paid") Fixture.start)))
         = (statements (trace Fixture.start)
            ++ [INSERT_invoices (opt_get (Fixture.form "c1" "0.005" "paid") "customerId")
                  (Js.Number x)
                  (opt_get (Fixture.form "c1" "0.005" "paid") "status")
                  (Js.Str (today Fixture.ok_env Fixture.start))])%list
      /\ statements (trace (snd (updateInvoice Fixture.ok_env (Some "x") None
                                   (Fixture.form "c1" "0.005" "paid") Fixture.start)))
         = (statements (trace Fixture.start)
            ++ [UPDATE_invoices (opt_get (Fixture.form "c1" "0.005" "paid") "customerId")
                  (Js.Number x)
                  (opt_get (Fixture.form "c1" "0.005" "paid") "status")
                  (opt_str (Some "x"))])%list.
Proof.
  split; [reflexivity|].
  apply (persisted_amount_is_never_NaN_nor_negative Fixture.World Fixture.ok_env
           (Some "x") None (Fixture.form "c1" "0.005" "paid") Fixture.start).
  reflexivity.
Defined.

(** The amount has no upper bound: a form whose amount coerces to
    [+Infinity] (the text "Infinity", or a literal beyond the range of the
    doubles), with a customer and a status that pass, is accepted, and the
    statements bind [+Infinity]. *)
Theorem infinite_amount_is_accepted :
  forall (W : Type) (env : Env W) (id : option string) (prev : option State)
         (fd : option FormData) (s : Sys W) (c : string),
    opt_get fd "customerId" = Js.Str c ->
    Js.ToNumber (opt_get fd "amount") = S754_infinity false ->
    opt_get fd "status" = Js.Str "pending" \/ opt_get fd "status" = Js.Str "paid" ->
    validateInvoiceForms fd = None
    /\ statements (trace (snd (createInvoice env prev fd s)))
       = (statements (trace s)
          ++ [INSERT_invoices (Js.Str c) (Js.Number (S754_infinity false))
                (opt_get fd "status") (Js.Str (today env s))])%list
    /\ statements (trace (snd (updateInvoice env id prev fd s)))
       = (statements (trace s)
          ++ [UPDATE_invoices (Js.Str c) (Js.Number (S754_infinity false))
                (opt_get fd "status") (opt_str id)])%list.
Proof.
  intros W env id prev fd s c Hc Ha Hs.
  assert (validateInvoiceForms fd = None) as V.
  { apply form_accepted. split; [eauto|]. split; [now rewrite Ha|exact Hs]. }
  split; [exact V|].
  rewrite createInvoice_run, updateInvoice_run, V, !after_statement_statements.
  unfold insert_for, update_for, amount_in_cents. rewrite Hc, Ha.
  split; reflexivity.
Qed.

Lemma infinite_amount_is_accepted_witness :
  opt_get (Fixture.form "c1" "1e999" "paid") "customerId" = Js.Str "c1"
  /\ Js.ToNumber (opt_get (Fixture.form "c1" "1e999" "paid") "amount")
     = S754_infinity false
  /\ validateInvoiceForms (Fixture.form "c1" "1e999" "paid") = None
  /\ statements (trace (snd (createInvoice Fixture.ok_env None
                               (Fixture.form "c1" "1e999" "paid") Fixture.start)))
     = (statements (trace Fixture.start)
        ++ [INSERT_invoices (Js.Str "c1") (Js.Number (S754_infinity false))
              (opt_get (Fixture.form "c1" "1e999" "paid") "status")
              (Js.Str (today Fixture.ok_env Fixture.start))])%list
  /\ statements (trace (snd (updateInvoice Fixture.ok_env (Some "x") None
                               (Fixture.form "c1" "1e999" "paid") Fixture.start)))
     = (statements (trace Fixture.start)
        ++ [UPDATE_invoices (Js.Str "c1") (Js.Number (S754_infinity false))
              (opt_get (Fixture.form "c1" "1e999" "paid") "status")
              (opt_str (Some "x"))])%list.
Proof.
  split; [reflexivity|]. split; [vm_compute; reflexivity|].
  apply (infinite_amount_is_accepted Fixture.World Fixture.ok_env (Some "x") None
           (Fixture.form "c1" "1e999" "paid") Fixture.start "c1").
  - reflexivity.
  - vm_compute. reflexivity.
  - right. reflexivity.
Defined.
